(** * decthings model runtime (run/run.py): wire codec, registries, dispatcher

    A shallow embedding of [src/decthings_model/run/run.py].  Module-level
    dictionaries become finite maps inside an explicit [state]; Python
    objects that are shared by reference (the [stored] dict of one
    [callInstantiateModel] activation, a [TrainTracker]) live in a store
    addressed by natural numbers; [async def] handlers become resumable
    computations that stop at every [await]. *)

From Stdlib Require Import ZArith NArith Lia.
From Stdlib.Strings Require Import Byte.
From stdpp Require Import gmap strings list pretty.

Open Scope Z_scope.
Set Warnings "-register-all".

(** ** Bytes and big-endian integers *)

Abbreviation bytes := (list byte).

(** Least significant byte of [n]. *)
Definition byte_of_N (n : N) : byte :=
  default x00 (Byte.of_N (n mod 256)%N).

(** [len] base-256 digits of [n], least significant first. *)
Fixpoint digits_le (len : nat) (n : N) : bytes :=
  match len with
  | O => []
  | S k => byte_of_N n :: digits_le k (n / 256)%N
  end.

(** [n.to_bytes(len, 'big')]: [None] stands for Python's [OverflowError]
    (negative, or too big for [len] bytes). *)
Definition to_bytes (len : nat) (n : Z) : option bytes :=
  if (0 <=? n) && (n <? 256 ^ Z.of_nat len)
  then Some (rev (digits_le len (Z.to_N n)))
  else None.

(** [int.from_bytes(b, 'big')]. *)
Definition from_bytes (b : bytes) : N :=
  fold_left (fun acc x => (acc * 256 + Byte.to_N x)%N) b 0%N.

(** ** bytearray operations used by the encoder *)

(** [bytearray(n)]: [n] zero bytes. *)
Definition bytearray (n : nat) : bytes := replicate n x00.

(** [buf[a:b] = x] for [0 <= a], [0 <= b]: Python clamps both bounds to the
    length and replaces the slice, whatever the length of [x]. *)
Definition slice_assign (buf : bytes) (a b : nat) (x : bytes) : bytes :=
  take a buf ++ x ++ drop (a `max` b)%nat buf.

(** [buf[i] = v]: [None] stands for [IndexError]. *)
Definition index_assign (buf : bytes) (i : nat) (v : byte) : option bytes :=
  if (i <? length buf)%nat then Some (<[i:=v]> buf) else None.

(** [argsTotalSize]: the accumulation loop over [toSend]. *)
Definition argsTotalSize (toSend : list bytes) : nat :=
  fold_left (fun acc el => (acc + length el)%nat) toSend 0%nat.

(** The loop that writes every segment at [position]
    (run.py lines 315-318 and 353-356). *)
Fixpoint write_segments (finalBuffer : bytes) (position : nat)
    (toSend : list bytes) : option (bytes * nat) :=
  match toSend with
  | [] => Some (finalBuffer, position)
  | el :: rest =>
      match to_bytes 8 (Z.of_nat (length el)) with
      | None => None
      | Some lenb =>
          let b1 := slice_assign finalBuffer position (position + 8) lenb in
          let b2 := slice_assign b1 (position + 8) (position + 8 + length el) el in
          write_segments b2 (position + 8 + length el)%nat rest
      end
  end.

(** The frame construction shared by [sendEventToParent] (lines 306-320)
    and [processMessage] (lines 344-358): [toSend] is the segment list. *)
Definition encodeControlFrame (toSend : list bytes) : option bytes :=
  let finalBuffer := bytearray (6 + length toSend * 8 + argsTotalSize toSend) in
  match index_assign finalBuffer 0 x00 with
  | None => None
  | Some finalBuffer =>
      match to_bytes 4 (Z.of_nat (length toSend) - 1) with
      | None => None
      | Some cnt =>
          let finalBuffer := slice_assign finalBuffer 1 5 cnt in
          match write_segments finalBuffer 5 toSend with
          | None => None
          | Some (finalBuffer, position) => index_assign finalBuffer position x00
          end
      end
  end.

(** ** The inbound decoder of [inner_main] *)

(** [await reader.readexactly(n)] on the bytes still to come: [None] stands
    for [IncompleteReadError]. *)
Definition readexactly (n : N) (s : bytes) : option (bytes * bytes) :=
  if (n <=? N.of_nat (length s))%N
  then Some (take (N.to_nat n) s, drop (N.to_nat n) s)
  else None.

Inductive inbound :=
  | Rpc (segment_data : bytes)
  | ProvideData (request_id : N) (data : list bytes).

(** The [for i in range(num_segments)] loop of the data branch. *)
Fixpoint read_segments (num_segments : nat) (s : bytes) : option (list bytes * bytes) :=
  match num_segments with
  | O => Some ([], s)
  | S k =>
      match readexactly 8 s with
      | None => None
      | Some (lenb, s1) =>
          match readexactly (from_bytes lenb) s1 with
          | None => None
          | Some (segment_data, s2) =>
              match read_segments k s2 with
              | None => None
              | Some (data, s3) => Some (segment_data :: data, s3)
              end
          end
      end
  end.

(** One iteration of the [while True] loop of [inner_main]: the frame read
    and the bytes left on the stream. *)
Definition read_frame (s : bytes) : option (inbound * bytes) :=
  match readexactly 1 s with
  | None => None
  | Some (first, s1) =>
      let first_byte := hd x00 first in
      if Byte.eqb first_byte x00 then
        match readexactly 8 s1 with
        | None => None
        | Some (lenb, s2) =>
            match readexactly (from_bytes lenb) s2 with
            | None => None
            | Some (segment_data, s3) => Some (Rpc segment_data, s3)
            end
        end
      else
        match readexactly 4 s1 with
        | None => None
        | Some (idb, s2) =>
            match readexactly 4 s2 with
            | None => None
            | Some (numb, s3) =>
                match read_segments (N.to_nat (from_bytes numb)) s3 with
                | None => None
                | Some (data, s4) => Some (ProvideData (from_bytes idb) data, s4)
                end
            end
        end
  end.

(** [s.encode()] for the ASCII strings of the examples. *)
Definition ascii_bytes (s : string) : bytes := String.list_byte_of_string s.


(** ** Python values

    The values that cross the runtime: JSON data ([json.loads] results),
    user objects (an object is its attribute table, a dict its items, both
    with string keys), user callables and [TrainTracker] instances.  A
    float is kept as its bit pattern: the runtime only looks at its type. *)
Inductive pyval :=
  | PyNone
  | PyBool (b : bool)
  | PyInt (z : Z)
  | PyFloat (bits : Z)
  | PyStr (s : string)
  | PyBytes (b : bytes)
  | PyList (l : list pyval)
  | PyDict (d : list (string * pyval))
  | PyObj (attrs : list (string * pyval))
  | PyFunc (f : nat)
  | PyTracker (addr : nat).

(** An exception, identified with the text [traceback.format_exc()] gives
    while it is being handled. *)
Inductive exn := Traceback (text : string).

Definition traceback_text (e : exn) : string :=
  match e with Traceback t => t end.

Inductive outcome (A : Type) :=
  | Ok (a : A)
  | Exc (e : exn).
Arguments Ok {A} a.
Arguments Exc {A} e.

(** What a call into user code gives back: a value, an exception, or an
    awaitable (named by a number) that completes later. *)
Inductive user_result :=
  | UReturn (v : pyval)
  | URaise (e : exn)
  | UAwaitable (a : nat).

(** Calls that user code makes on the tracker it was handed. *)
Inductive tracker_call :=
  | OnCancel (cb : pyval)
  | Progress (progress : pyval)
  | Metrics (metrics : pyval).

(** Calls that leave run.py, in the order they happen. *)
Inductive event :=
  | EvLoadModule (path : pyval)
  | EvCreateDataLoaderMap (complete : nat) (params : pyval)
  | EvCreateStateLoaderMap (complete : nat) (st : pyval)
  | EvCreateStateProvider (complete : nat) (id : pyval)
  | EvUserCall (f : nat) (args : list pyval).

(** The collaborators of run.py that are not part of it: the [json] and
    [traceback] modules, module loading, the [dataloader] module of this
    package (its source is not under src/), and the user's code.  User code
    answers from the history of calls so far. *)
Record host := {
  json_dumps : pyval -> bytes;
  json_loads : bytes -> option pyval;
  format_exc : string -> string -> string;
  load_module : pyval -> outcome pyval;
  createDataLoaderMap : pyval -> outcome pyval;
  createStateLoaderMap : pyval -> outcome pyval;
  createStateProvider : pyval -> outcome pyval;
  user_call : nat -> list pyval -> list event -> user_result;
  user_tracker_calls : nat -> list pyval -> list event -> list tracker_call;
}.

(** ** The module state *)

(** [class TrainTracker]; [cancelled] is [None] until [callCancelTrain]
    sets the attribute ([__init__] does not create it). *)
Record TrainTracker := {
  id : pyval;
  _on_cancel : list pyval;
  _complete : bool;
  cancelled : option bool;
}.

(** The two closures a [stored] dict holds under ["dispose"]. *)
Inductive dispose_fn :=
  | dispose
  | dispose2 (awaitedres : pyval).

(** The locals of one [callInstantiateModel] activation that outlive its
    first suspension: [disposed], [modelFuture] ([None] while pending) and
    the [stored] dict, whose ["model"] is [modelFuture] itself ([None]) or
    the instantiated model. *)
Record activation := {
  act_id : string;
  disposed : bool;
  modelFuture : option pyval;
  stored_model : option pyval;
  stored_dispose : dispose_fn;
}.

Record state := {
  runningProgram : pyval;
  instantiatedModels : gmap string nat;
  trainingSessions : gmap string nat;
  activations : list activation;
  trackers : list TrainTracker;
  completes : list bool;
  outbox : list bytes;
  trace : list event;
}.

(** The module as imported: [runningProgram = None], both dicts empty. *)
Definition initial_state : state := {|
  runningProgram := PyNone;
  instantiatedModels := ∅;
  trainingSessions := ∅;
  activations := [];
  trackers := [];
  completes := [];
  outbox := [];
  trace := [];
|}.

Definition set_runningProgram (v : pyval) (s : state) : state :=
  {| runningProgram := v; instantiatedModels := instantiatedModels s;
     trainingSessions := trainingSessions s; activations := activations s;
     trackers := trackers s; completes := completes s; outbox := outbox s;
     trace := trace s |}.

Definition set_instantiatedModels (m : gmap string nat) (s : state) : state :=
  {| runningProgram := runningProgram s; instantiatedModels := m;
     trainingSessions := trainingSessions s; activations := activations s;
     trackers := trackers s; completes := completes s; outbox := outbox s;
     trace := trace s |}.

Definition set_trainingSessions (m : gmap string nat) (s : state) : state :=
  {| runningProgram := runningProgram s; instantiatedModels := instantiatedModels s;
     trainingSessions := m; activations := activations s;
     trackers := trackers s; completes := completes s; outbox := outbox s;
     trace := trace s |}.

Definition set_activations (l : list activation) (s : state) : state :=
  {| runningProgram := runningProgram s; instantiatedModels := instantiatedModels s;
     trainingSessions := trainingSessions s; activations := l;
     trackers := trackers s; completes := completes s; outbox := outbox s;
     trace := trace s |}.

Definition set_trackers (l : list TrainTracker) (s : state) : state :=
  {| runningProgram := runningProgram s; instantiatedModels := instantiatedModels s;
     trainingSessions := trainingSessions s; activations := activations s;
     trackers := l; completes := completes s; outbox := outbox s;
     trace := trace s |}.

Definition set_completes (l : list bool) (s : state) : state :=
  {| runningProgram := runningProgram s; instantiatedModels := instantiatedModels s;
     trainingSessions := trainingSessions s; activations := activations s;
     trackers := trackers s; completes := l; outbox := outbox s;
     trace := trace s |}.

Definition set_outbox (l : list bytes) (s : state) : state :=
  {| runningProgram := runningProgram s; instantiatedModels := instantiatedModels s;
     trainingSessions := trainingSessions s; activations := activations s;
     trackers := trackers s; completes := completes s; outbox := l;
     trace := trace s |}.

Definition set_trace (l : list event) (s : state) : state :=
  {| runningProgram := runningProgram s; instantiatedModels := instantiatedModels s;
     trainingSessions := trainingSessions s; activations := activations s;
     trackers := trackers s; completes := completes s; outbox := outbox s;
     trace := l |}.

(** ** Synchronous code: state and exceptions *)

Definition M (A : Type) : Type := state -> state * outcome A.

Definition ret {A} (a : A) : M A := fun s => (s, Ok a).
Definition raise {A} (e : exn) : M A := fun s => (s, Exc e).
Definition bind {A B} (m : M A) (k : A -> M B) : M B :=
  fun s => match m s with
           | (s', Ok a) => k a s'
           | (s', Exc e) => (s', Exc e)
           end.
Definition lift {A} (o : outcome A) : M A := fun s => (s, o).
Definition modify (f : state -> state) : M unit := fun s => (f s, Ok tt).
Definition gets {A} (f : state -> A) : M A := fun s => (s, Ok (f s)).

(** [try: m except: h]. *)
Definition try_except {A} (m : M A) (h : exn -> M A) : M A :=
  fun s => match m s with
           | (s', Ok a) => (s', Ok a)
           | (s', Exc e) => h e s'
           end.

Declare Scope py_scope.
Delimit Scope py_scope with py.
Notation "'let*' x ':=' m 'in' k" := (bind m (fun x => k))
  (at level 10, x name, m at level 100, k at level 200) : py_scope.
Notation "m ;; k" := (bind m (fun _ => k))
  (at level 100, k at level 200, right associativity) : py_scope.
Open Scope py_scope.

(** ** Resumable computations: [async def]

    A coroutine runs until it returns, raises, or reaches an [await] that
    has to wait; it is resumed later, on the state of that later moment,
    with what the awaited thing produced. *)
Inductive wait :=
  | AwaitUser (a : nat)
  | AwaitFuture (act : nat).

Inductive coro (R : Type) :=
  | Done (s : state) (r : R)
  | Raised (s : state) (e : exn)
  | Suspended (s : state) (w : wait) (k : outcome pyval -> state -> coro R).
Arguments Done {R} s r.
Arguments Raised {R} s e.
Arguments Suspended {R} s w k.

(** A synchronous stretch of code followed by the rest of the coroutine. *)
Definition sync {A R} (m : M A) (k : A -> state -> coro R) (s : state) : coro R :=
  match m s with
  | (s', Ok a) => k a s'
  | (s', Exc e) => Raised s' e
  end.

(** [if inspect.isawaitable(res): x = await res  else: x = res], where the
    call that produced [res] may also have raised; [k] receives the value
    or the exception. *)
Definition await_user {R} (res : user_result) (k : outcome pyval -> state -> coro R)
    (s : state) : coro R :=
  match res with
  | UReturn v => k (Ok v) s
  | URaise e => k (Exc e) s
  | UAwaitable a => Suspended s (AwaitUser a) k
  end.

(** Sequencing of a coroutine with the code that follows its [await]. *)
Fixpoint coro_then {A B} (c : coro A) (f : A -> state -> coro B) : coro B :=
  match c with
  | Done s a => f a s
  | Raised s e => Raised s e
  | Suspended s w k => Suspended s w (fun wk s' => coro_then (k wk s') f)
  end.

(** The state a computation has reached. *)
Definition coro_state {R} (c : coro R) : state :=
  match c with
  | Done s _ => s
  | Raised s _ => s
  | Suspended s _ _ => s
  end.

(** The event loop wakes a suspended coroutine with [w] on state [s]. *)
Definition resume {R} (c : coro R) (w : outcome pyval) (s : state) : coro R :=
  match c with
  | Suspended _ _ k => k w s
  | Done _ r => Done s r
  | Raised _ e => Raised s e
  end.

(** What a handler returns: the dict with ["result"] and, for [callEvaluate],
    ["alsoSend"]; [None] is Python's [None] (the plain [def] handlers). *)
Record response := {
  result : pyval;
  alsoSend : option (list bytes);
}.

(** ** Small pieces of Python *)

Fixpoint dict_get (k : string) (d : list (string * pyval)) : option pyval :=
  match d with
  | [] => None
  | (k', v) :: rest => if String.eqb k k' then Some v else dict_get k rest
  end.

Definition is_str (k : string) (v : pyval) : bool :=
  match v with
  | PyStr s => String.eqb s k
  | _ => false
  end.

Definition is_none (v : pyval) : bool :=
  match v with
  | PyNone => true
  | _ => false
  end.

(** Whether [v] can be a dict key. *)
Definition py_hashable (v : pyval) : bool :=
  match v with
  | PyList _ | PyDict _ => false
  | _ => true
  end.

(** [len(s)] and [s[0:n]] (for [0 <= n]) on text. *)
Definition str_len (s : string) : Z := Z.of_nat (String.length s).
Definition str_prefix (n : Z) (s : string) : string := String.substring 0 (Z.to_nat n) s.

(** [b''.join(l)]. *)
Definition bytes_join (l : list bytes) : bytes := concat l.

Section Runtime.

Variable E : host.

(** An exception raised by the runtime itself or by the interpreter. *)
Definition runtime_exn (cls msg : string) : exn := Traceback (format_exc E cls msg).

(** [v[k]] for a string [k]. *)
Definition subscript (v : pyval) (k : string) : M pyval :=
  match v with
  | PyDict d =>
      match dict_get k d with
      | Some x => ret x
      | None => raise (runtime_exn "KeyError" k)
      end
  | _ => raise (runtime_exn "TypeError" "indices must be integers or the object is not subscriptable")
  end.

(** [k in v] for a string [k]. *)
Definition py_in (k : string) (v : pyval) : M bool :=
  match v with
  | PyDict d => ret (bool_decide (is_Some (dict_get k d)))
  | PyList l => ret (existsb (is_str k) l)
  | PyStr s => ret (bool_decide (is_Some (String.index 0 k s)))
  | _ => raise (runtime_exn "TypeError" "argument is not iterable")
  end.

(** [for x in v]: the elements iterated. *)
Definition py_iter (v : pyval) : M (list pyval) :=
  match v with
  | PyList l => ret l
  | PyDict d => ret (map (fun kv => PyStr kv.1) d)
  | PyStr s => ret (map (fun c => PyStr (String c EmptyString)) (String.list_ascii_of_string s))
  | PyBytes b => ret (map (fun x => PyInt (Z.of_N (Byte.to_N x))) b)
  | _ => raise (runtime_exn "TypeError" "object is not iterable")
  end.

(** The key of a registry dict.  The host sends string ids, and this file
    keys both registries by strings.  run.py itself accepts any hashable
    id (an int id simply answers as any other key); ids of another type
    are outside this model, which ends the call with an error there, and
    every statement below names its ids as strings. *)
Definition as_key (v : pyval) : M string :=
  match v with
  | PyStr s => ret s
  | _ => raise (runtime_exn "TypeError" "unhashable or non-string id")
  end.

(** ** Sending (lines 293-326) *)

(** [sendMessageToParent]: the write is handed to the event loop; writes
    happen in the order they were handed over. *)
Definition sendMessageToParent (message : bytes) : M unit :=
  modify (fun s => set_outbox (outbox s ++ [message]) s).

Definition sendEventToParent (event : string) (params : pyval)
    (additionalSegments : list bytes) : M unit :=
  let toSend :=
    json_dumps E (PyDict [("event", PyStr event); ("params", params)]) :: additionalSegments in
  match encodeControlFrame toSend with
  | Some finalBuffer => sendMessageToParent finalBuffer
  | None => raise (runtime_exn "OverflowError" "int too big to convert")
  end.

Definition sendDataEventToParent (event : pyval) : M unit :=
  let encoded := json_dumps E event in
  match to_bytes 1 1, to_bytes 8 (Z.of_nat (length encoded)) with
  | Some tag, Some lenb => sendMessageToParent (tag ++ lenb ++ encoded)
  | _, _ => raise (runtime_exn "OverflowError" "int too big to convert")
  end.

(** ** TrainTracker (lines 16-50) *)

Definition get_tracker (t : nat) : M TrainTracker :=
  fun s => match trackers s !! t with
           | Some tr => (s, Ok tr)
           | None => (s, Exc (runtime_exn "ReferenceError" "no such tracker"))
           end.

Definition put_tracker (t : nat) (tr : TrainTracker) : M unit :=
  modify (fun s => set_trackers (<[t:=tr]> (trackers s)) s).

(** [TrainTracker(id)]: a new object. *)
Definition new_TrainTracker (i : pyval) : M nat :=
  fun s => (set_trackers (trackers s ++
              [{| id := i; _on_cancel := []; _complete := false; cancelled := None |}]) s,
            Ok (length (trackers s))).

Definition on_cancel (self : nat) (cb : pyval) : M unit :=
  let* tr := get_tracker self in
  put_tracker self {| id := id tr; _on_cancel := _on_cancel tr ++ [cb];
                      _complete := _complete tr; cancelled := cancelled tr |}.

Definition progress (self : nat) (progress : pyval) : M unit :=
  let* tr := get_tracker self in
  if _complete tr then
    raise (runtime_exn "Exception"
      "TrainTracker progress: Cannot report progress after the training session was completed.")
  else
    match progress with
    | PyInt _ | PyFloat _ =>
        sendEventToParent "trainingProgress"
          (PyDict [("trainingSessionId", id tr); ("progress", progress)]) []
    | _ =>
        raise (runtime_exn "Exception"
          "TrainTracker progress: Invalid argument passed to progress(). Parameter 'progress' must be an int or float.")
    end.

(** The [for metric in metrics] loop (lines 41-49). *)
Fixpoint metrics_loop (metrics : list pyval) (nameslist : list pyval)
    (byteslist : list bytes) : outcome (list pyval * list bytes) :=
  match metrics with
  | [] => Ok (nameslist, byteslist)
  | PyDict d :: rest =>
      match dict_get "name" d with
      | Some (PyStr n) =>
          match dict_get "value" d with
          | Some (PyBytes b) => metrics_loop rest (nameslist ++ [PyStr n]) (byteslist ++ [b])
          | _ => Exc (runtime_exn "Exception"
                   "TrainTracker metrics: Invalid argument passed to metrics(). Expected each element of list 'metrics' to contain a field 'value' that is bytes.")
          end
      | _ => Exc (runtime_exn "Exception"
               "TrainTracker metrics: Invalid argument passed to metrics(). Expected each element of list 'metrics' to contain a field 'name' that is a string.")
      end
  | _ :: _ => Exc (runtime_exn "Exception"
                "TrainTracker metrics: Invalid argument passed to metrics(). Expected each element of list 'metrics' to be a dict.")
  end.

Definition metrics (self : nat) (metrics : pyval) : M unit :=
  let* tr := get_tracker self in
  if _complete tr then
    raise (runtime_exn "Exception"
      "TrainTracker metrics: Cannot report metrics after the training session was completed.")
  else
    match metrics with
    | PyList l =>
        if (length l =? 0)%nat then ret tt
        else
          match metrics_loop l [] [] with
          | Exc e => raise e
          | Ok (nameslist, byteslist) =>
              sendEventToParent "trainingMetrics"
                (PyDict [("trainingSessionId", id tr); ("names", PyList nameslist)]) byteslist
          end
    | _ =>
        raise (runtime_exn "Exception"
          "TrainTracker metrics: Invalid argument passed to metrics(). Parameter 'metrics' must be a list.")
    end.

(** ** getErrorFromException (lines 52-56); [e] is the exception being
    handled. *)
Definition getErrorFromException (e : exn) : pyval :=
  let err_str := traceback_text e in
  let err_str :=
    if 10000 <? str_len err_str then
      str_prefix 10000 err_str
        +:+ " (exception shortened - actual exception contained "
        +:+ pretty (str_len err_str - 10000)
        +:+ " more characters)"
    else err_str in
  PyDict [("code", PyStr "exception"); ("details", PyStr err_str)].

(** ** Calls into user code *)

(** Calling [f] on [args]: the call is recorded and user code answers. *)
Definition call (f : pyval) (args : list pyval) (s : state) : state * user_result :=
  match f with
  | PyFunc n => (set_trace (trace s ++ [EvUserCall n args]) s, user_call E n args (trace s))
  | _ => (s, URaise (runtime_exn "TypeError" "object is not callable"))
  end.

(** [obj[name]] when [isinstance(obj, dict)], [obj.name] otherwise. *)
Definition capability (obj : pyval) (name : string) : outcome pyval :=
  match obj with
  | PyDict d =>
      match dict_get name d with
      | Some f => Ok f
      | None => Exc (runtime_exn "KeyError" name)
      end
  | PyObj attrs =>
      match dict_get name attrs with
      | Some f => Ok f
      | None => Exc (runtime_exn "AttributeError" name)
      end
  | _ => Exc (runtime_exn "AttributeError" name)
  end.

Definition invoke (obj : pyval) (name : string) (args : list pyval) (s : state)
    : state * user_result :=
  match capability obj name with
  | Ok f => call f args s
  | Exc e => (s, URaise e)
  end.

(** One call of user code on its tracker; what it raises stays inside
    user code. *)
Definition tracker_step (t : nat) (c : tracker_call) (s : state) : state :=
  match c with
  | OnCancel cb => (on_cancel t cb s).1
  | Progress v => (progress t v s).1
  | Metrics v => (metrics t v s).1
  end.

(** [model.train(map, tracker)]: as [invoke], and the calls user code makes
    on [tracker] before it gives control back. *)
Definition invoke_train (model : pyval) (map : pyval) (t : nat) (s : state)
    : state * user_result :=
  let args := [map; PyTracker t] in
  match capability model "train" with
  | Ok (PyFunc n) =>
      let '(s1, res) := call (PyFunc n) args s in
      (fold_left (fun st c => tracker_step t c st) (user_tracker_calls E n args (trace s)) s1, res)
  | Ok f => call f args s
  | Exc e => (s, URaise e)
  end.

(** ** The [complete] dicts and the dataloader module *)

(** [complete = { "complete": False }]: a new shared cell. *)
Definition new_complete : M nat :=
  fun s => (set_completes (completes s ++ [false]) s, Ok (length (completes s))).

(** [complete["complete"] = True]. *)
Definition set_complete (c : nat) : M unit :=
  modify (fun s => set_completes (<[c:=true]> (completes s)) s).

Definition log (ev : event) : M unit :=
  modify (fun s => set_trace (trace s ++ [ev]) s).

Definition call_createDataLoaderMap (c : nat) (params : pyval) : M pyval :=
  log (EvCreateDataLoaderMap c params) ;; lift (createDataLoaderMap E params).

Definition call_createStateLoaderMap (c : nat) (st : pyval) : M pyval :=
  log (EvCreateStateLoaderMap c st) ;; lift (createStateLoaderMap E st).

Definition call_createStateProvider (c : nat) (i : pyval) : M pyval :=
  log (EvCreateStateProvider c i) ;; lift (createStateProvider E i).

(** ** Results *)

Definition ok_result : option response :=
  Some {| result := PyDict []; alsoSend := None |}.

Definition not_found_result : option response :=
  Some {| result := PyDict [("error", PyStr "instantiated_model_not_found")];
          alsoSend := None |}.

Definition error_result (e : exn) : option response :=
  Some {| result := PyDict [("error", getErrorFromException e)]; alsoSend := None |}.

Abbreviation handler := (pyval -> state -> coro (option response)).

Definition finish {R} (r : R) (s : state) : coro R := Done s r.

(** ** initialize (lines 58-75) *)
Definition initialize : handler := fun args =>
  sync
    (let* path := subscript args "path" in
     match path with
     | PyStr _ =>
         log (EvLoadModule path) ;;
         let* loaded :=
           try_except
             (let* model := lift (load_module E path) in
              modify (set_runningProgram model) ;;
              ret true)
             (fun e =>
                sendEventToParent "modelSessionInitialized"
                  (PyDict [("error", getErrorFromException e)]) [] ;;
                ret false) in
         if loaded
         then sendEventToParent "modelSessionInitialized" (PyDict []) []
         else ret tt
     | _ => raise (runtime_exn "TypeError" "expected str, bytes or os.PathLike object")
     end ;;
     ret None)
    finish.
(** ** callCreateModelState (lines 77-97) *)

(** The loop over [args["otherModelStates"]] (lines 82-83); the dict it
    fills is not used afterwards. *)
Fixpoint other_model_states_loop (c : nat) (l : list pyval) : M unit :=
  match l with
  | [] => ret tt
  | other_model_state :: rest =>
      let* st := subscript other_model_state "state" in
      let* _ := call_createStateLoaderMap c st in
      let* i := subscript other_model_state "id" in
      (if py_hashable i then ret tt
       else raise (runtime_exn "TypeError" "unhashable type")) ;;
      other_model_states_loop c rest
  end.

Definition callCreateModelState : handler := fun args =>
  sync
    (let* c := new_complete in
     let* params := subscript args "params" in
     let* map := call_createDataLoaderMap c params in
     let* i := subscript args "id" in
     let* provider := call_createStateProvider c i in
     let* others := subscript args "otherModelStates" in
     let* l := py_iter others in
     other_model_states_loop c l ;;
     ret (c, map, provider))
    (fun '(c, map, provider) s =>
       let '(s1, res) := invoke (runningProgram s) "createModelState" [map; provider] s in
       await_user res
         (fun w =>
            match w with
            | Ok _ => sync (set_complete c ;; ret ok_result) finish
            | Exc e => sync (set_complete c ;; ret (error_result e)) finish
            end) s1).

(** ** callInstantiateModel (lines 99-150) *)

Definition get_activation (a : nat) : M activation :=
  fun s => match activations s !! a with
           | Some act => (s, Ok act)
           | None => (s, Exc (runtime_exn "ReferenceError" "no such activation"))
           end.

Definition put_activation (a : nat) (act : activation) : M unit :=
  modify (fun s => set_activations (<[a:=act]> (activations s)) s).

(** [del d[key]] on the two registries. *)
Definition del_instantiatedModels (key : string) : M unit :=
  fun s => match instantiatedModels s !! key with
           | Some _ => (set_instantiatedModels (delete key (instantiatedModels s)) s, Ok tt)
           | None => (s, Exc (runtime_exn "KeyError" key))
           end.

Definition del_trainingSessions (key : string) : M unit :=
  fun s => match trainingSessions s !! key with
           | Some _ => (set_trainingSessions (delete key (trainingSessions s)) s, Ok tt)
           | None => (s, Exc (runtime_exn "KeyError" key))
           end.

(** [modelFuture.set_result(v)] of activation [a]. *)
Definition set_result (a : nat) (v : pyval) : M unit :=
  let* act := get_activation a in
  match modelFuture act with
  | Some _ => raise (runtime_exn "InvalidStateError" "invalid state")
  | None =>
      put_activation a {| act_id := act_id act; disposed := disposed act;
                          modelFuture := Some v; stored_model := stored_model act;
                          stored_dispose := stored_dispose act |}
  end.

(** [stored["model"] = v] and [stored["dispose"] = d]. *)
Definition set_stored_model (a : nat) (v : pyval) : M unit :=
  let* act := get_activation a in
  put_activation a {| act_id := act_id act; disposed := disposed act;
                      modelFuture := modelFuture act; stored_model := Some v;
                      stored_dispose := stored_dispose act |}.

Definition set_stored_dispose (a : nat) (d : dispose_fn) : M unit :=
  let* act := get_activation a in
  put_activation a {| act_id := act_id act; disposed := disposed act;
                      modelFuture := modelFuture act; stored_model := stored_model act;
                      stored_dispose := d |}.

Definition set_disposed (a : nat) : M unit :=
  let* act := get_activation a in
  put_activation a {| act_id := act_id act; disposed := true;
                      modelFuture := modelFuture act; stored_model := stored_model act;
                      stored_dispose := stored_dispose act |}.

(** The body of [dispose2] (lines 140-144): the model's own dispose. *)
Definition call_dispose2 (awaitedres : pyval) : M unit :=
  fun s => match invoke awaitedres "dispose" [] s with
           | (s', URaise e) => (s', Exc e)
           | (s', _) => (s', Ok tt)
           end.

(** What calling the closure kept under [stored["dispose"]] of activation
    [a] does: the body of [dispose] (lines 104-108) or of [dispose2]. *)
Definition call_stored_dispose (a : nat) : M unit :=
  let* act := get_activation a in
  match stored_dispose act with
  | dispose =>
      set_disposed a ;;
      del_instantiatedModels (act_id act) ;;
      set_result a PyNone
  | dispose2 awaitedres => call_dispose2 awaitedres
  end.

Definition callInstantiateModel : handler := fun args s0 =>
  let a := length (activations s0) in
  sync
    (let* i := subscript args "instantiatedModelId" in
     let* key := as_key i in
     (* the activation's [disposed], [modelFuture] and [stored]; they are
        created before the id is read, and reachable only once line 115
        has put [stored] in the registry *)
     modify (fun s => set_activations (activations s ++
       [{| act_id := key; disposed := false; modelFuture := None;
           stored_model := None; stored_dispose := dispose |}]) s) ;;
     modify (fun s => set_instantiatedModels (<[key:=a]> (instantiatedModels s)) s) ;;
     let* c := new_complete in
     let* st := subscript args "state" in
     let* stateLoaders := call_createStateLoaderMap c st in
     ret (key, c, stateLoaders))
    (fun '(key, c, stateLoaders) s =>
       let '(s1, res) := invoke (runningProgram s) "instantiateModel" [stateLoaders] s in
       await_user res
         (fun w =>
            match w with
            | Exc e =>
                sync
                  (set_complete c ;;
                   let* act := get_activation a in
                   (if negb (disposed act)
                    then del_instantiatedModels key ;; set_result a PyNone
                    else ret tt) ;;
                   ret (error_result e))
                  finish
            | Ok awaitedres =>
                sync
                  (set_complete c ;;
                   set_stored_model a awaitedres ;;
                   let* act := get_activation a in
                   (if disposed act
                    then call_dispose2 awaitedres
                    else set_stored_dispose a (dispose2 awaitedres) ;;
                         set_result a awaitedres) ;;
                   ret ok_result)
                  finish
            end) s1)
    s0.

(** ** callDisposeInstantiatedModel (lines 152-156) *)
Definition callDisposeInstantiatedModel : handler := fun args =>
  sync
    (let* i := subscript args "instantiatedModelId" in
     let* key := as_key i in
     let* models := gets instantiatedModels in
     match models !! key with
     | Some a =>
         modify (fun s => set_instantiatedModels (delete key (instantiatedModels s)) s) ;;
         (* instantiatedModel["dispose"]: the closure is looked up, not called *)
         let* _ := gets (fun s => stored_dispose <$> activations s !! a) in
         ret None
     | None => ret None
     end)
    finish.
(** ** Looking a model up (lines 165-171, 205-211, 253-259)

    The same lines in [callTrain], [callEvaluate] and [callGetModelState]:
    [stored["model"]] is the model, or [modelFuture], which is awaited; a
    future that is done does not suspend. *)
Definition resolve_model {R} (a : nat) (k : pyval -> state -> coro R)
    (not_found : state -> coro R) (s : state) : coro R :=
  match activations s !! a with
  | None => Raised s (runtime_exn "ReferenceError" "no such activation")
  | Some act =>
      match stored_model act with
      | Some model => k model s
      | None =>
          let continue w s' :=
            match w with
            | Ok model => if is_none model then not_found s' else k model s'
            | Exc e => Raised s' e
            end in
          match modelFuture act with
          | Some v => continue (Ok v) s
          | None => Suspended s (AwaitFuture a) continue
          end
      end
  end.

(** ** callTrain (lines 158-193) *)

(** [tracker._complete = True]. *)
Definition set_tracker_complete (t : nat) : M unit :=
  let* tr := get_tracker t in
  put_tracker t {| id := id tr; _on_cancel := _on_cancel tr;
                   _complete := true; cancelled := cancelled tr |}.

Definition callTrain : handler := fun args =>
  sync
    (let* tid := subscript args "trainingSessionId" in
     let* tracker := new_TrainTracker tid in
     let* tkey := as_key tid in
     modify (fun s => set_trainingSessions (<[tkey:=tracker]> (trainingSessions s)) s) ;;
     let* i := subscript args "instantiatedModelId" in
     let* key := as_key i in
     let* models := gets instantiatedModels in
     ret (tracker, tkey, models !! key))
    (fun '(tracker, tkey, found) =>
       match found with
       | None => finish not_found_result
       | Some a =>
           resolve_model a
             (fun model =>
                sync
                  (let* c := new_complete in
                   let* params := subscript args "params" in
                   let* map := call_createDataLoaderMap c params in
                   ret (c, map))
                  (fun '(c, map) s =>
                     let '(s1, res) := invoke_train model map tracker s in
                     await_user res
                       (fun w =>
                          match w with
                          | Ok _ =>
                              sync
                                (set_tracker_complete tracker ;;
                                 set_complete c ;;
                                 del_trainingSessions tkey ;;
                                 ret ok_result)
                                finish
                          | Exc e =>
                              sync
                                (set_tracker_complete tracker ;;
                                 set_complete c ;;
                                 del_trainingSessions tkey ;;
                                 ret (error_result e))
                                finish
                          end) s1))
             (finish not_found_result)
       end).

(** ** callCancelTrain (lines 195-200) *)

(** [for cancel in tracker._on_cancel: cancel()]. *)
Fixpoint cancel_loop (cbs : list pyval) : M unit :=
  match cbs with
  | [] => ret tt
  | cancel :: rest =>
      fun s => match call cancel [] s with
               | (s', URaise e) => (s', Exc e)
               | (s', _) => cancel_loop rest s'
               end
  end.

Definition callCancelTrain : handler := fun args =>
  sync
    (let* tid := subscript args "trainingSessionId" in
     let* tkey := as_key tid in
     let* sessions := gets trainingSessions in
     match sessions !! tkey with
     | Some tracker =>
         let* tr := get_tracker tracker in
         put_tracker tracker {| id := id tr; _on_cancel := _on_cancel tr;
                                _complete := _complete tr; cancelled := Some true |} ;;
         cancel_loop (_on_cancel tr) ;;
         ret None
     | None => ret None
     end)
    finish.

(** ** callEvaluate (lines 202-248) *)

(** [for el2 in el['data']]: every element must be [bytes]. *)
Fixpoint data_loop (data : list pyval) : outcome (list bytes) :=
  match data with
  | [] => Ok []
  | PyBytes b :: rest =>
      match data_loop rest with
      | Ok l => Ok (b :: l)
      | Exc e => Exc e
      end
  | _ :: _ => Exc (runtime_exn "Exception"
      "Evaluate: Expected each element in the return list of 'evaluate' to contain a field 'data' that is a list where each element is a bytes object. Got something other than bytes.")
  end.

(** [for el in awaitedres] (lines 232-243). *)
Fixpoint outputs_loop (awaitedres : list pyval) (outputs : list pyval)
    (alsoSend : list bytes) : outcome (list pyval * list bytes) :=
  match awaitedres with
  | [] => Ok (outputs, alsoSend)
  | PyDict el :: rest =>
      match dict_get "name" el with
      | Some (PyStr name) =>
          match dict_get "data" el with
          | Some (PyList data) =>
              match data_loop data with
              | Exc e => Exc e
              | Ok bs =>
                  outputs_loop rest
                    (outputs ++ [PyDict [("name", PyStr name);
                       ("byteSizes", PyList (map (fun x => PyInt (Z.of_nat (length x))) bs))]])
                    (alsoSend ++ bs)
              end
          | _ => Exc (runtime_exn "Exception"
              "Evaluate: Expected each element in the return list of 'evaluate' to contain a field 'data' that is a list.")
          end
      | _ => Exc (runtime_exn "Exception"
          "Evaluate: Expected each element in the return list of 'evaluate' to contain a field 'name' that is a string.")
      end
  | _ :: _ => Exc (runtime_exn "Exception"
      "Evaluate: Expected each element in the return list of 'evaluate' to be a dict.")
  end.

Definition callEvaluate : handler := fun args =>
  sync
    (let* i := subscript args "instantiatedModelId" in
     let* key := as_key i in
     let* models := gets instantiatedModels in
     ret (models !! key))
    (fun found =>
       match found with
       | None => finish not_found_result
       | Some a =>
           resolve_model a
             (fun model =>
                sync
                  (let* c := new_complete in
                   let* params := subscript args "params" in
                   let* map := call_createDataLoaderMap c params in
                   ret (c, map))
                  (fun '(c, map) s =>
                     let '(s1, res) := invoke model "evaluate" [map] s in
                     await_user res
                       (fun w =>
                          match w with
                          | Ok awaitedres =>
                              sync
                                (set_complete c ;;
                                 match awaitedres with
                                 | PyList l =>
                                     match outputs_loop l [] [] with
                                     | Ok (outputs, alsoSend) =>
                                         ret (Some {| result := PyDict [("outputs", PyList outputs)];
                                                      alsoSend := Some [bytes_join alsoSend] |})
                                     | Exc e => ret (error_result e)
                                     end
                                 | _ => ret (error_result (runtime_exn "Exception"
                                     "Evaluate: Expected return value of 'evaluate' to be a list."))
                                 end)
                                finish
                          | Exc e => sync (set_complete c ;; ret (error_result e)) finish
                          end) s1))
             (finish not_found_result)
       end).

(** ** callGetModelState (lines 250-278) *)
Definition callGetModelState : handler := fun args =>
  sync
    (let* i := subscript args "instantiatedModelId" in
     let* key := as_key i in
     let* models := gets instantiatedModels in
     ret (models !! key))
    (fun found =>
       match found with
       | None => finish not_found_result
       | Some a =>
           resolve_model a
             (fun model =>
                sync
                  (let* c := new_complete in
                   let* i := subscript args "id" in
                   let* provider := call_createStateProvider c i in
                   ret (c, provider))
                  (fun '(c, provider) s =>
                     let '(s1, res) := invoke model "getModelState" [provider] s in
                     await_user res
                       (fun w =>
                          match w with
                          | Ok _ => sync (set_complete c ;; ret ok_result) finish
                          | Exc e => sync (set_complete c ;; ret (error_result e)) finish
                          end) s1))
             (finish not_found_result)
       end).

(** ** The method table (lines 280-288) *)
Definition rpc : gmap string handler :=
  list_to_map [
    ("initialize", initialize);
    ("callCreateModelState", callCreateModelState);
    ("callInstantiateModel", callInstantiateModel);
    ("callDisposeInstantiatedModel", callDisposeInstantiatedModel);
    ("callTrain", callTrain);
    ("callEvaluate", callEvaluate);
    ("callGetModelState", callGetModelState)
  ].

(** ** processMessage (lines 328-360) *)

(** The reply of lines 339-360, once the handler has produced
    [_response]. *)
Definition reply (parsed : pyval) (_response : option response) : M unit :=
  let* params := subscript parsed "params" in
  let* has_id := py_in "id" params in
  if negb has_id then ret tt
  else
    let* params := subscript parsed "params" in
    let* i := subscript params "id" in
    match _response with
    | None => raise (runtime_exn "TypeError" "'NoneType' object is not subscriptable")
    | Some r =>
        let toSend :=
          json_dumps E (PyDict [("id", i); ("result", result r)])
            :: default [] (alsoSend r) in
        match encodeControlFrame toSend with
        | Some finalBuffer => sendMessageToParent finalBuffer
        | None => raise (runtime_exn "OverflowError" "int too big to convert")
        end
    end.

Definition processMessage (buf : bytes) (s : state) : coro unit :=
  match json_loads E buf with
  | None => Raised s (runtime_exn "JSONDecodeError" "malformed message")
  | Some parsed =>
      sync
        (let* method := subscript parsed "method" in
         let* h :=
           match method with
           | PyStr name =>
               match rpc !! name with
               | Some h => ret h
               | None => raise (runtime_exn "KeyError" name)
               end
           | _ => raise (runtime_exn "KeyError" "method")
           end in
         let* params := subscript parsed "params" in
         ret (h, params))
        (fun '(h, params) s1 =>
           coro_then (h params s1)
             (fun _response => sync (reply parsed _response) finish))
        s
  end.

End Runtime.

(** ** The layout and an inverse of it, for the outbound control frame *)

(** One segment on the wire: its length on 8 bytes, big-endian, then its
    bytes. *)
Definition be (len : nat) (n : N) : bytes := rev (digits_le len n).

Definition wire_segment (el : bytes) : bytes :=
  be 8 (N.of_nat (length el)) ++ el.

(** The layout section 4.1 of the specification gives for a control frame. *)
Definition control_layout (toSend : list bytes) : bytes :=
  [x00] ++ be 4 (N.of_nat (length toSend - 1)) ++ concat (map wire_segment toSend) ++ [x00].

(** A reader of that layout, as the peer of this runtime needs one (run.py
    itself only reads the inbound layouts of [read_frame]): the tag, the
    count minus one, the length-prefixed segments, the closing zero. *)
Definition spec_decode_control_frame (s : bytes) : option (list bytes) :=
  match readexactly 1 s with
  | Some (tag, s1) =>
      if Byte.eqb (hd x01 tag) x00 then
        match readexactly 4 s1 with
        | Some (cntb, s2) =>
            match read_segments (S (N.to_nat (from_bytes cntb))) s2 with
            | Some (segments, [z]) => if Byte.eqb z x00 then Some segments else None
            | _ => None
            end
        | None => None
        end
      else None
  | None => None
  end.

(** A segment list the frame format can carry: at least one segment, the
    count minus one on 4 bytes, every length on 8 bytes. *)
Definition fits_frame (toSend : list bytes) : Prop :=
  toSend <> [] /\ Z.of_nat (length toSend) - 1 < 2 ^ 32 /\
  Forall (fun el => Z.of_nat (length el) < 2 ^ 64) toSend.

(** ** model.py: the wrappers between the runtime and user code

    [make_model] puts these functions between run.py and the user's
    executor.  A wrapper object ([DataLoader], [TrainTracker]) is the
    object whose only attribute is [_inner]. *)
Module model.

Section Wrappers.

Variable E : host.

(** [callable(v)]. *)
Definition callable (v : pyval) : bool :=
  match v with
  | PyFunc _ => true
  | _ => false
  end.

(** [getattr(obj, name, None)]. *)
Definition getattr_or_None (obj : pyval) (name : string) : pyval :=
  match obj with
  | PyObj attrs => default PyNone (dict_get name attrs)
  | _ => PyNone
  end.

(** [DataLoader(inner)] (lines 36-38). *)
Definition DataLoader (inner : pyval) : pyval := PyObj [("_inner", inner)].

(** [TrainTracker(inner)] (lines 82-84). *)
Definition TrainTracker (inner : pyval) : pyval := PyObj [("_inner", inner)].

(** A method call [inner.name(arg)] on what a wrapper holds.  The
    runtime's tracker (run.py, lines 16-50) has the methods [on_cancel],
    [progress] and [metrics]; on another object the attribute is looked up
    and called. *)
Definition call_method (inner : pyval) (name : string) (arg : pyval) : M unit :=
  match inner with
  | PyTracker t =>
      if String.eqb name "on_cancel" then on_cancel E t arg
      else if String.eqb name "progress" then progress E t arg
      else if String.eqb name "metrics" then metrics E t arg
      else raise (runtime_exn E "AttributeError" name)
  | PyObj attrs =>
      match dict_get name attrs with
      | Some f =>
          fun s => match call E f [arg] s with
                   | (s', URaise e) => (s', Exc e)
                   | (s', _) => (s', Ok tt)
                   end
      | None => raise (runtime_exn E "AttributeError" name)
      end
  | _ => raise (runtime_exn E "AttributeError" name)
  end.

(** [self._inner] of a wrapper. *)
Definition inner_of (self : pyval) : M pyval :=
  match self with
  | PyObj attrs =>
      match dict_get "_inner" attrs with
      | Some inner => ret inner
      | None => raise (runtime_exn E "AttributeError" "_inner")
      end
  | _ => raise (runtime_exn E "AttributeError" "_inner")
  end.

(** [TrainTracker.on_cancel], [failed] and [progress] (lines 86-96). *)
Definition TrainTracker_on_cancel (self cb : pyval) : M unit :=
  let* inner := inner_of self in call_method inner "on_cancel" cb.

Definition TrainTracker_failed (self reason : pyval) : M unit :=
  let* inner := inner_of self in call_method inner "failed" reason.

Definition TrainTracker_progress (self progress : pyval) : M unit :=
  let* inner := inner_of self in call_method inner "progress" progress.

End Wrappers.

Module _Model.

Section Static.

Variable E : host.

(** [_create_data_loader_map] (lines 110-114). *)
Definition _create_data_loader_map (params : pyval) : outcome pyval :=
  match params with
  | PyDict d => Ok (PyDict (map (fun kv => (kv.1, DataLoader kv.2)) d))
  | _ => Exc (runtime_exn E "AttributeError" "keys")
  end.

(** The check the static methods share: the capability [name] of
    [executor], looked up as a dict item or as an attribute, or the
    [ValueError] raised for a missing or non-callable one.  [None] is the
    silent return of [dispose] when there is no such capability. *)
Definition checked (executor : pyval) (name : string) (optional : bool)
    : outcome (option pyval) :=
  match executor with
  | PyDict d =>
      match dict_get name d with
      | None =>
          if optional then Ok None
          else Exc (runtime_exn E "ValueError" ("The function was missing: " +:+ name))
      | Some f =>
          if callable f then Ok (Some f)
          else Exc (runtime_exn E "ValueError" ("The property was not a function: " +:+ name))
      end
  | _ =>
      let fn := getattr_or_None executor name in
      if is_none fn then
        if optional then Ok None
        else Exc (runtime_exn E "ValueError" ("The function was missing: " +:+ name))
      else if callable fn then Ok (Some fn)
      else Exc (runtime_exn E "ValueError" ("The property was not a function: " +:+ name))
  end.

(** A checked capability called on [args]. *)
Definition call_checked (executor : pyval) (name : string) (optional : bool)
    (args : list pyval) (s : state) : state * user_result :=
  match checked executor name optional with
  | Ok (Some f) => call E f args s
  | Ok None => (s, UReturn PyNone)
  | Exc e => (s, URaise e)
  end.

(** [createModelState] (lines 116-131). *)
Definition createModelState (executor params provider : pyval) (s : state)
    : state * user_result :=
  match _create_data_loader_map params with
  | Exc e => (s, URaise e)
  | Ok dataloader => call_checked executor "createModelState" false [dataloader; provider] s
  end.

(** [dispose] (lines 204-218). *)
Definition dispose (awaitedinstantiated : pyval) (s : state) : state * user_result :=
  call_checked awaitedinstantiated "dispose" true [] s.

(** [getModelState] (lines 220-234). *)
Definition getModelState (awaitedinstantiated provider : pyval) (s : state)
    : state * user_result :=
  call_checked awaitedinstantiated "getModelState" false [provider] s.

(** [train] (lines 236-251). *)
Definition train (awaitedinstantiated params tracker : pyval) (s : state)
    : state * user_result :=
  match _create_data_loader_map params with
  | Exc e => (s, URaise e)
  | Ok dataloader =>
      call_checked awaitedinstantiated "train" false [dataloader; TrainTracker tracker] s
  end.

End Static.

End _Model.

End model.

(** ** Well-formed arguments of the tracker's reports *)

Definition metric_name (m : pyval) : option pyval :=
  match m with
  | PyDict d =>
      match dict_get "name" d with
      | Some (PyStr n) => Some (PyStr n)
      | _ => None
      end
  | _ => None
  end.

Definition metric_value (m : pyval) : option bytes :=
  match m with
  | PyDict d =>
      match dict_get "value" d with
      | Some (PyBytes b) => Some b
      | _ => None
      end
  | _ => None
  end.

(** An element [metrics] accepts: a dict whose ["name"] is a string and
    whose ["value"] is bytes. *)
Definition well_formed_metric (m : pyval) : bool :=
  match metric_name m, metric_value m with
  | Some _, Some _ => true
  | _, _ => false
  end.

Definition metric_names (l : list pyval) : list pyval := omap metric_name l.
Definition metric_values (l : list pyval) : list bytes := omap metric_value l.

(** A value [progress] accepts: [type(progress)] is [int] or [float]. *)
Definition well_formed_progress (v : pyval) : bool :=
  match v with
  | PyInt _ | PyFloat _ => true
  | _ => false
  end.

(** ** Cancellation callbacks *)

(** A callback that can be called and gives control back: a user callable
    that does not raise, whatever happened before. *)
Definition callable_returns (E : host) (cb : pyval) : Prop :=
  exists n, cb = PyFunc n /\ forall h e, user_call E n [] h <> URaise e.

(** The calls [callbacks] stand for, one per registration, in order. *)
Definition cancel_events (callbacks : list pyval) : list event :=
  omap (fun cb => match cb with
                  | PyFunc n => Some (EvUserCall n [])
                  | _ => None
                  end) callbacks.

(** User code registers [callbacks], one [on_cancel] call each. *)
Definition register_all (E : host) (t : nat) (callbacks : list pyval) (s : state) : state :=
  fold_left (fun st cb => (on_cancel E t cb st).1) callbacks s.

(** ** A sample host, for the examples

    JSON text for the values the examples send, a reader that knows the
    messages of the examples, and user code: a program object whose
    [instantiateModel] is asynchronous, a model object with the four
    capabilities, and two cancellation callbacks. *)

Definition dquote : string := String (Ascii.ascii_of_nat 34) EmptyString.

Fixpoint sample_json (v : pyval) : string :=
  match v with
  | PyNone => "null"
  | PyBool b => if b then "true" else "false"
  | PyInt z => pretty z
  | PyStr s => dquote +:+ s +:+ dquote
  | PyList l =>
      "[" +:+ (fix items (l : list pyval) : string :=
                 match l with
                 | [] => ""
                 | [x] => sample_json x
                 | x :: rest => sample_json x +:+ ", " +:+ items rest
                 end) l +:+ "]"
  | PyDict d =>
      "{" +:+ (fix items (d : list (string * pyval)) : string :=
                 match d with
                 | [] => ""
                 | [(k, x)] => dquote +:+ k +:+ dquote +:+ ": " +:+ sample_json x
                 | (k, x) :: rest =>
                     dquote +:+ k +:+ dquote +:+ ": " +:+ sample_json x +:+ ", " +:+ items rest
                 end) d +:+ "}"
  | _ => "null"
  end.

Definition sample_dumps (v : pyval) : bytes := ascii_bytes (sample_json v).

Fixpoint bytes_eqb (a b : bytes) : bool :=
  match a, b with
  | [], [] => true
  | x :: a', y :: b' => Byte.eqb x y && bytes_eqb a' b'
  | _, _ => false
  end.

(** Control messages: one naming a method the table does not have, with
    a correlation id; a cancellation; an evaluation. *)
Definition unknown_method_message : pyval :=
  PyDict [("method", PyStr "callPredict");
          ("params", PyDict [("instantiatedModelId", PyStr "m1"); ("id", PyStr "7")])].

Definition cancel_message : pyval :=
  PyDict [("method", PyStr "callCancelTrain");
          ("params", PyDict [("trainingSessionId", PyStr "t1")])].

Definition evaluate_message : pyval :=
  PyDict [("method", PyStr "callEvaluate");
          ("params", PyDict [("instantiatedModelId", PyStr "m1"); ("params", PyList []);
                             ("id", PyStr "8")])].

Definition sample_loads (buf : bytes) : option pyval :=
  find (fun m => bytes_eqb buf (sample_dumps m))
       [unknown_method_message; cancel_message; evaluate_message].

Definition sample_model : pyval :=
  PyObj [("evaluate", PyFunc 2); ("train", PyFunc 3);
         ("getModelState", PyFunc 4); ("dispose", PyFunc 5)].

Definition sample_program : pyval :=
  PyObj [("createModelState", PyFunc 0); ("instantiateModel", PyFunc 1)].

Definition sample_host : host := {|
  json_dumps := sample_dumps;
  json_loads := sample_loads;
  format_exc := fun cls msg => cls +:+ ": " +:+ msg;
  load_module := fun _ => Ok sample_program;
  createDataLoaderMap := fun _ => Ok (PyObj []);
  createStateLoaderMap := fun _ => Ok (PyObj []);
  createStateProvider := fun _ => Ok (PyObj []);
  user_call := fun f _ _ =>
    match f with
    | 1%nat => UAwaitable 0
    | 2%nat => UReturn (PyList [])
    | _ => UReturn PyNone
    end;
  user_tracker_calls := fun _ _ _ => [];
|}.

(** A state with one training session ["t1"] whose tracker is [tr]. *)
Definition state_with_tracker (tr : TrainTracker) : state :=
  set_trackers [tr] (set_trainingSessions {["t1" := 0%nat]} initial_state).

Definition fresh_tracker : TrainTracker :=
  {| id := PyStr "t1"; _on_cancel := []; _complete := false; cancelled := None |}.

Definition completed_tracker : TrainTracker :=
  {| id := PyStr "t1"; _on_cancel := []; _complete := true; cancelled := None |}.

Definition sample_metric : pyval :=
  PyDict [("name", PyStr "loss"); ("value", PyBytes (ascii_bytes "abc"))].

(** ** Two runs of instantiate and dispose, for the examples *)

Definition instantiate_args : pyval :=
  PyDict [("instantiatedModelId", PyStr "m1"); ("state", PyList [])].

Definition dispose_args : pyval :=
  PyDict [("instantiatedModelId", PyStr "m1")].

(** After [initialize] has loaded the sample program. *)
Definition loaded_state : state := set_runningProgram sample_program initial_state.

(** [callInstantiateModel] up to its [await]: the user's instantiation is
    asynchronous. *)
Definition instantiating : coro (option response) :=
  callInstantiateModel sample_host instantiate_args loaded_state.

(** First run: the instantiation completes with the sample model, then the
    host disposes the model. *)
Definition ready_then_disposed : coro (option response) :=
  callDisposeInstantiatedModel sample_host dispose_args
    (coro_state (resume instantiating (Ok sample_model) (coro_state instantiating))).

(** Second run: the host disposes while the instantiation is pending, then
    the instantiation completes with the sample model. *)
Definition disposed_then_ready : coro (option response) :=
  resume instantiating (Ok sample_model)
    (coro_state (callDisposeInstantiatedModel sample_host dispose_args
                   (coro_state instantiating))).

(** Whether [f] was called in a trace. *)
Definition called (f : nat) (tr : list event) : bool :=
  existsb (fun ev => match ev with
                     | EvUserCall g _ => (f =? g)%nat
                     | _ => false
                     end) tr.

(** What stays as it was when user code calls its tracker. *)
Definition same_registries (s s' : state) : Prop :=
  trainingSessions s' = trainingSessions s /\
  instantiatedModels s' = instantiatedModels s /\
  activations s' = activations s /\
  completes s' = completes s /\
  trace s' = trace s /\
  length (trackers s') = length (trackers s).

(** ** What [callEvaluate] returns *)

(** The ["byteSizes"] of one output of the result, and their total over
    the outputs. *)
Definition output_byte_sizes (output : pyval) : list Z :=
  match output with
  | PyDict d =>
      match dict_get "byteSizes" d with
      | Some (PyList sizes) =>
          omap (fun x => match x with PyInt z => Some z | _ => None end) sizes
      | _ => []
      end
  | _ => []
  end.

Definition byte_sizes_total (outputs : list pyval) : Z :=
  foldr Z.add 0 (concat (map output_byte_sizes outputs)).

(** The state [callInstantiateModel] is in when it has called the user's
    [instantiateModel] (callable [n]): activation and handle created, the
    state loaders made, the call recorded. *)
Definition instantiate_called (key : string) (st loaders : pyval) (n : nat) (s : state) : state :=
  set_trace (trace s ++ [EvCreateStateLoaderMap (length (completes s)) st;
                         EvUserCall n [loaders]])
    (set_completes (completes s ++ [false])
       (set_instantiatedModels (<[key := length (activations s)]> (instantiatedModels s))
          (set_activations (activations s ++
             [{| act_id := key; disposed := false; modelFuture := None;
                 stored_model := None; stored_dispose := dispose |}]) s))).

(** More control messages: a one-way dispose, a dispose with an id, a
    train call without its arguments. *)
Definition dispose_message : pyval :=
  PyDict [("method", PyStr "callDisposeInstantiatedModel");
          ("params", PyDict [("instantiatedModelId", PyStr "m1")])].

Definition dispose_message_with_id : pyval :=
  PyDict [("method", PyStr "callDisposeInstantiatedModel");
          ("params", PyDict [("instantiatedModelId", PyStr "m1"); ("id", PyStr "9")])].

Definition train_message_without_arguments : pyval :=
  PyDict [("method", PyStr "callTrain"); ("params", PyDict [])].

(** A second sample host: no module loads, [evaluate] (callable 2)
    returns one output of two tensors, callable 6 returns the sample
    model at once, callable 10 returns, every other callable raises. *)
Definition raising_host : host := {|
  json_dumps := sample_dumps;
  json_loads := fun buf =>
    find (fun m => bytes_eqb buf (sample_dumps m))
         [dispose_message; dispose_message_with_id; train_message_without_arguments;
          evaluate_message];
  format_exc := fun cls msg => cls +:+ ": " +:+ msg;
  load_module := fun _ => Exc (Traceback "ImportError: no module");
  createDataLoaderMap := fun _ => Ok (PyObj []);
  createStateLoaderMap := fun _ => Ok (PyObj []);
  createStateProvider := fun _ => Ok (PyObj []);
  user_call := fun f _ _ =>
    match f with
    | 2%nat => UReturn (PyList [PyDict [("name", PyStr "out");
                                         ("data", PyList [PyBytes (ascii_bytes "abc");
                                                          PyBytes (ascii_bytes "de")])]])
    | 6%nat => UReturn sample_model
    | 10%nat => UReturn PyNone
    | _ => URaise (Traceback "RuntimeError: boom")
    end;
  user_tracker_calls := fun _ _ _ => [];
|}.

(** A program whose [instantiateModel] (callable 6) is synchronous. *)
Definition sync_program : pyval :=
  PyObj [("createModelState", PyFunc 0); ("instantiateModel", PyFunc 6)].

(** A tracker with two callbacks, and one whose second callback is
    callable 11. *)
Definition tracker_with_callbacks : TrainTracker :=
  {| id := PyStr "t1"; _on_cancel := [PyFunc 10; PyFunc 11; PyFunc 10];
     _complete := false; cancelled := None |}.

Definition evaluate_args : list (string * pyval) :=
  [("instantiatedModelId", PyStr "m1"); ("params", PyList [])].

Definition train_args : list (string * pyval) :=
  [("trainingSessionId", PyStr "t1"); ("instantiatedModelId", PyStr "m1");
   ("params", PyList [])].

Definition create_args : list (string * pyval) :=
  [("params", PyList []); ("id", PyStr "c1");
   ("otherModelStates",
    PyList [PyDict [("id", PyStr "o1"); ("state", PyList [])]])].

(** A state in which model ["m1"] is ready. *)
Definition ready_state : state :=
  coro_state (resume instantiating (Ok sample_model) (coro_state instantiating)).

(** ** The other model states of [callCreateModelState] *)

(** An entry of ["otherModelStates"] the loop of lines 82-83 accepts: a
    dict with a ["state"] the dataloader module takes and a hashable
    ["id"]. *)
Definition well_formed_other_state (E : host) (o : pyval) : Prop :=
  exists od st i loaders,
    o = PyDict od /\ dict_get "state" od = Some st /\ dict_get "id" od = Some i /\
    py_hashable i = true /\ createStateLoaderMap E st = Ok loaders.

(** The state loader maps created for the entries, in order. *)
Definition other_state_events (c : nat) (others : list pyval) : list event :=
  omap (fun o => match o with
                 | PyDict od =>
                     match dict_get "state" od with
                     | Some st => Some (EvCreateStateLoaderMap c st)
                     | None => None
                     end
                 | _ => None
                 end) others.

(** What a model (a dict or an object) has under [name]. *)
Definition capability_of (m : pyval) (name : string) : option pyval :=
  match m with
  | PyDict d => dict_get name d
  | PyObj attrs => dict_get name attrs
  | _ => None
  end.

(** A state in which model ["m1"] is ready and is [m]. *)
Definition state_with_model (m : pyval) : state :=
  set_activations
    [{| act_id := "m1"; disposed := false; modelFuture := Some m;
        stored_model := Some m; stored_dispose := dispose2 m |}]
    (set_instantiatedModels {["m1" := 0%nat]} initial_state).

(** A model whose [evaluate] and [train] are callable 3. *)
Definition failing_model : pyval :=
  PyObj [("evaluate", PyFunc 3); ("train", PyFunc 3)].

(** ** Well-formed values of [evaluate]

    What lines 232-243 accept as an element of the list [evaluate]
    returns, the bytes such an element carries and the output announced
    for it. *)

Definition output_data (el : pyval) : list bytes :=
  match el with
  | PyDict d =>
      match dict_get "data" d with
      | Some (PyList data) =>
          omap (fun x => match x with PyBytes b => Some b | _ => None end) data
      | _ => []
      end
  | _ => []
  end.

Definition well_formed_output (el : pyval) : bool :=
  match el with
  | PyDict d =>
      match dict_get "name" d, dict_get "data" d with
      | Some (PyStr _), Some (PyList data) =>
          forallb (fun x => match x with PyBytes _ => true | _ => false end) data
      | _, _ => false
      end
  | _ => false
  end.

Definition announced_output (el : pyval) : pyval :=
  PyDict [("name", match el with
                   | PyDict d => default PyNone (dict_get "name" d)
                   | _ => PyNone
                   end);
          ("byteSizes", PyList (map (fun x : bytes => PyInt (Z.of_nat (length x)))
                                  (output_data el)))].

(** * Proofs *)

(** ** Big-endian integers *)

Lemma to_N_byte_of_N n : Byte.to_N (byte_of_N n) = (n mod 256)%N.
Proof.
  unfold byte_of_N.
  destruct (Byte.of_N (n mod 256)%N) as [b|] eqn:Hb.
  - simpl. by apply Byte.to_of_N.
  - apply Byte.of_N_None_iff in Hb.
    pose proof (N.mod_upper_bound n 256). lia.
Qed.

Lemma from_bytes_snoc l x :
  from_bytes (l ++ [x]) = (from_bytes l * 256 + Byte.to_N x)%N.
Proof. unfold from_bytes. by rewrite fold_left_app. Qed.

Lemma length_be len n : length (be len n) = len.
Proof.
  unfold be. rewrite length_rev. revert n.
  induction len as [|k IH]; intros n; simpl; [done|]. by rewrite IH.
Qed.

Lemma from_bytes_be len n : from_bytes (be len n) = (n mod 256 ^ N.of_nat len)%N.
Proof.
  unfold be. revert n. induction len as [|k IH]; intros n.
  - simpl. by rewrite N.mod_1_r.
  - cbn [digits_le rev]. rewrite from_bytes_snoc, IH, to_N_byte_of_N.
    rewrite Nat2N.inj_succ, N.pow_succ_r'.
    rewrite (N.Div0.mod_mul_r n 256 (256 ^ N.of_nat k)). lia.
Qed.

Lemma from_bytes_be_small len n :
  (n < 256 ^ N.of_nat len)%N -> from_bytes (be len n) = n.
Proof. intros H. rewrite from_bytes_be. by apply N.mod_small. Qed.

Lemma to_bytes_Some len (n : nat) :
  Z.of_nat n < 256 ^ Z.of_nat len ->
  to_bytes len (Z.of_nat n) = Some (be len (N.of_nat n)).
Proof.
  intros H. unfold to_bytes, be.
  destruct (Z.leb_spec 0 (Z.of_nat n)); [|lia].
  destruct (Z.ltb_spec (Z.of_nat n) (256 ^ Z.of_nat len)); [|lia].
  simpl. by rewrite <- nat_N_Z, N2Z.id.
Qed.

Lemma to_bytes_inv len n b :
  to_bytes len n = Some b -> 0 <= n < 256 ^ Z.of_nat len /\ b = be len (Z.to_N n).
Proof.
  unfold to_bytes, be.
  destruct (Z.leb_spec 0 n); destruct (Z.ltb_spec n (256 ^ Z.of_nat len));
    simpl; intros [=]; subst; split; (lia || done).
Qed.

(** ** The encoder writes the layout *)

Lemma slice_assign_app pre m post x a b :
  a = length pre -> b = (a + length m)%nat ->
  slice_assign (pre ++ m ++ post) a b x = pre ++ x ++ post.
Proof.
  intros -> ->. unfold slice_assign.
  rewrite Nat.max_r by lia.
  rewrite take_app_length.
  rewrite (app_assoc pre m post), drop_app_length'; [done|].
  by rewrite length_app.
Qed.

Lemma argsTotalSize_from (toSend : list bytes) acc :
  fold_left (fun a el => (a + length el)%nat) toSend acc
  = (acc + length (concat toSend))%nat.
Proof.
  revert acc. induction toSend as [|el rest IH]; intros acc; simpl; [lia|].
  rewrite IH, length_app. lia.
Qed.

Lemma length_wire_segments toSend :
  length (concat (map wire_segment toSend))
  = (length toSend * 8 + argsTotalSize toSend)%nat.
Proof.
  unfold argsTotalSize. rewrite argsTotalSize_from.
  induction toSend as [|el rest IH]; [done|].
  cbn [map concat length]. rewrite !length_app, IH. unfold wire_segment.
  rewrite length_app, length_be. lia.
Qed.

Lemma write_segments_layout toSend : forall pre mid post,
  Forall (fun el => Z.of_nat (length el) < 2 ^ 64) toSend ->
  length mid = length (concat (map wire_segment toSend)) ->
  write_segments (pre ++ mid ++ post) (length pre) toSend
  = Some (pre ++ concat (map wire_segment toSend) ++ post,
          (length pre + length mid)%nat).
Proof.
  induction toSend as [|el rest IH]; intros pre mid post Hfit Hlen.
  - simpl in *. destruct mid; [|done]. simpl. by rewrite Nat.add_0_r.
  - inversion Hfit as [|? ? Hel Hrest]; subst.
    cbn [write_segments].
    rewrite (to_bytes_Some 8) by (change (256 ^ Z.of_nat 8) with (2 ^ 64); lia).
    cbn [map concat] in *. unfold wire_segment at 1 in Hlen.
    rewrite !length_app, length_be in Hlen.
    rewrite <- (take_drop 8 mid) at 1.
    rewrite <- (take_drop (length el) (drop 8 mid)) at 1.
    set (m1 := take 8 mid). set (m2 := take (length el) (drop 8 mid)).
    set (mid' := drop (length el) (drop 8 mid)).
    assert (length m1 = 8%nat) as Hm1 by (subst m1; rewrite length_take; lia).
    assert (length m2 = length el) as Hm2
      by (subst m2; rewrite length_take, length_drop; lia).
    assert (length mid' = length (concat (map wire_segment rest))) as Hmid'
      by (subst mid'; rewrite !length_drop; lia).
    rewrite <- (app_assoc m1), <- (app_assoc m2).
    rewrite (slice_assign_app pre m1) by (done || lia).
    rewrite (app_assoc pre), (slice_assign_app _ m2);
      [|rewrite length_app, length_be; lia|lia].
    replace (length pre + 8 + length el)%nat
      with (length ((pre ++ be 8 (N.of_nat (length el))) ++ el))
      by (rewrite !length_app, length_be; lia).
    rewrite (app_assoc _ el (mid' ++ post)).
    rewrite IH by done.
    f_equal. f_equal.
    + unfold wire_segment. by rewrite <- !app_assoc.
    + rewrite !length_app, length_be. lia.
Qed.

Lemma encodeControlFrame_layout toSend :
  fits_frame toSend -> encodeControlFrame toSend = Some (control_layout toSend).
Proof.
  intros (Hne & Hcnt & Hfit). unfold encodeControlFrame, control_layout.
  set (cnt := be 4 (N.of_nat (length toSend - 1))).
  set (segs := concat (map wire_segment toSend)).
  assert (bytearray (6 + length toSend * 8 + argsTotalSize toSend)
          = [x00] ++ replicate 4 x00 ++ replicate (length segs) x00 ++ [x00]) as ->.
  { unfold bytearray, segs. rewrite length_wire_segments.
    replace (6 + length toSend * 8 + argsTotalSize toSend)%nat
      with (1 + (4 + ((length toSend * 8 + argsTotalSize toSend) + 1)))%nat by lia.
    by rewrite !replicate_add. }
  assert (index_assign ([x00] ++ replicate 4 x00 ++ replicate (length segs) x00 ++ [x00]) 0 x00
          = Some ([x00] ++ replicate 4 x00 ++ replicate (length segs) x00 ++ [x00])) as ->
    by done.
  assert (Z.of_nat (length toSend) - 1 = Z.of_nat (length toSend - 1)) as ->
    by (destruct toSend; [done|simpl; lia]).
  rewrite (to_bytes_Some 4) by (change (256 ^ Z.of_nat 4) with (2 ^ 32); lia).
  fold cnt.
  rewrite (slice_assign_app [x00] (replicate 4 x00)) by done.
  rewrite (app_assoc [x00] cnt).
  assert (length ([x00] ++ cnt) = 5%nat) as Hpre
    by (rewrite length_app; unfold cnt; by rewrite length_be).
  rewrite <- Hpre at 1.
  rewrite write_segments_layout by (done || by rewrite length_replicate).
  rewrite length_replicate. unfold index_assign.
  rewrite (app_assoc _ segs), <- length_app.
  set (body := ([x00] ++ cnt) ++ segs).
  destruct (Nat.ltb_spec (length body) (length (body ++ [x00]))) as [_|Hge];
    [|rewrite length_app in Hge; simpl in Hge; lia].
  f_equal. rewrite list_insert_id.
  - unfold body. by rewrite <- !app_assoc.
  - rewrite lookup_app_r by done. by rewrite Nat.sub_diag.
Qed.

(** ** Reading back *)

Lemma readexactly_app (x rest : bytes) :
  readexactly (N.of_nat (length x)) (x ++ rest) = Some (x, rest).
Proof.
  unfold readexactly. rewrite length_app.
  destruct (N.leb_spec (N.of_nat (length x)) (N.of_nat (length x + length rest)));
    [|lia].
  by rewrite Nat2N.id, take_app_length, drop_app_length.
Qed.

Lemma readexactly_be len n (rest : bytes) :
  readexactly (N.of_nat len) (be len n ++ rest) = Some (be len n, rest).
Proof. rewrite <- (length_be len n) at 1. apply readexactly_app. Qed.

Lemma from_bytes_length (el : bytes) :
  Z.of_nat (length el) < 2 ^ 64 ->
  from_bytes (be 8 (N.of_nat (length el))) = N.of_nat (length el).
Proof.
  intros H. apply from_bytes_be_small.
  change (256 ^ N.of_nat 8)%N with (2 ^ 64)%N. lia.
Qed.

Lemma read_segments_wire segments : forall rest,
  Forall (fun el => Z.of_nat (length el) < 2 ^ 64) segments ->
  read_segments (length segments) (concat (map wire_segment segments) ++ rest)
  = Some (segments, rest).
Proof.
  induction segments as [|el more IH]; intros rest Hfit; [done|].
  inversion Hfit as [|? ? Hel Hmore]; subst.
  cbn [length map concat read_segments]. unfold wire_segment at 1.
  rewrite <- !app_assoc.
  rewrite (readexactly_be 8), from_bytes_length by done.
  rewrite readexactly_app. by rewrite IH.
Qed.

Lemma spec_decode_control_layout toSend :
  fits_frame toSend -> spec_decode_control_frame (control_layout toSend) = Some toSend.
Proof.
  intros (Hne & Hcnt & Hfit). unfold spec_decode_control_frame, control_layout.
  rewrite (readexactly_app [x00]). cbn [hd Byte.eqb].
  rewrite (readexactly_be 4).
  rewrite from_bytes_be_small
    by (change (256 ^ N.of_nat 4)%N with (2 ^ 32)%N; destruct toSend; simpl in *; lia).
  rewrite Nat2N.id.
  replace (S (length toSend - 1)) with (length toSend)
    by (destruct toSend; [done|simpl; lia]).
  by rewrite read_segments_wire.
Qed.

(** The inbound control layout of [inner_main]: one length-prefixed
    segment after the tag. *)
Lemma read_frame_rpc (segment_data rest : bytes) :
  Z.of_nat (length segment_data) < 2 ^ 64 ->
  read_frame ([x00] ++ wire_segment segment_data ++ rest) = Some (Rpc segment_data, rest).
Proof.
  intros H. unfold read_frame, wire_segment.
  rewrite (readexactly_app [x00]). cbn [hd Byte.eqb].
  rewrite <- app_assoc, (readexactly_be 8), from_bytes_length by done.
  by rewrite readexactly_app.
Qed.

(** ** Training tracker *)

Section TrackerProofs.

Variable E : host.

Lemma get_tracker_Some s t tr :
  trackers s !! t = Some tr -> get_tracker E t s = (s, Ok tr).
Proof. intros H. unfold get_tracker. by rewrite H. Qed.

Lemma sendEventToParent_fits event params additionalSegments s :
  let toSend :=
    json_dumps E (PyDict [("event", PyStr event); ("params", params)]) :: additionalSegments in
  fits_frame toSend ->
  sendEventToParent E event params additionalSegments s
  = (set_outbox (outbox s ++ [control_layout toSend]) s, Ok tt).
Proof.
  intros toSend Hfit. unfold sendEventToParent. fold toSend.
  by rewrite encodeControlFrame_layout.
Qed.

Lemma metrics_loop_well_formed l : forall nameslist byteslist,
  Forall (fun m => well_formed_metric m = true) l ->
  metrics_loop E l nameslist byteslist
  = Ok (nameslist ++ metric_names l, byteslist ++ metric_values l).
Proof.
  induction l as [|m l IH]; intros ns bs Hwf.
  - simpl. by rewrite !app_nil_r.
  - inversion Hwf as [|? ? Hm Hl]; subst.
    destruct m as [| | | | | | |d| | |]; try discriminate Hm.
    unfold well_formed_metric in Hm. cbn [metric_name metric_value] in Hm.
    cbn [metrics_loop]. unfold metric_names, metric_values.
    cbn [omap list_omap metric_name metric_value].
    destruct (dict_get "name" d) as [[| | | |n| | | | | |]|]; try discriminate Hm.
    destruct (dict_get "value" d) as [[| | | | |b| | | | |]|]; try discriminate Hm.
    rewrite IH by done. by rewrite <- !app_assoc.
Qed.

End TrackerProofs.

(** After completion: on a tracker whose [_complete] is true, [progress]
    and [metrics] raise whatever their argument is, and leave the state as
    it was: nothing is handed to the writer. *)
Lemma reporting_after_completion (E : host) s t tr v :
  trackers s !! t = Some tr -> _complete tr = true ->
  (exists e, progress E t v s = (s, Exc e)) /\ (exists e, metrics E t v s = (s, Exc e)).
Proof.
  intros Ht Hc. unfold progress, metrics, bind.
  rewrite (get_tracker_Some E s t tr Ht), Hc. split; eexists; reflexivity.
Qed.

(** While active: on a tracker whose [_complete] is false, [progress]
    with an int or a float and [metrics] with a list of well-formed
    elements return normally, having handed exactly one frame to the
    writer (none for the empty list), provided the frame fits the wire
    format. *)
Lemma reporting_while_active (E : host) s t tr :
  trackers s !! t = Some tr -> _complete tr = false ->
  (forall v,
     well_formed_progress v = true ->
     let toSend := [json_dumps E (PyDict [("event", PyStr "trainingProgress");
                      ("params", PyDict [("trainingSessionId", id tr); ("progress", v)])])] in
     fits_frame toSend ->
     progress E t v s = (set_outbox (outbox s ++ [control_layout toSend]) s, Ok tt)) /\
  (forall l,
     Forall (fun m => well_formed_metric m = true) l ->
     let toSend := json_dumps E (PyDict [("event", PyStr "trainingMetrics");
                     ("params", PyDict [("trainingSessionId", id tr);
                                        ("names", PyList (metric_names l))])])
                   :: metric_values l in
     fits_frame toSend ->
     metrics E t (PyList l) s
     = (if l is [] then s else set_outbox (outbox s ++ [control_layout toSend]) s, Ok tt)).
Proof.
  intros Ht Hc. split.
  - intros v Hv toSend Hfit. unfold progress, bind.
    rewrite (get_tracker_Some E s t tr Ht), Hc.
    destruct v; try discriminate Hv; by apply sendEventToParent_fits.
  - intros l Hwf toSend Hfit. unfold metrics, bind.
    rewrite (get_tracker_Some E s t tr Ht), Hc.
    destruct l as [|m l]; [done|].
    cbn [length Nat.eqb].
    rewrite metrics_loop_well_formed by done. cbn [app].
    by apply sendEventToParent_fits.
Qed.

(** C6.  For every training tracker whose completed flag is true,
    [progress(value)] and [metrics(list)] raise an exception and send no
    event (the state, outbox included, is unchanged); for every tracker
    whose completed flag is false and whose arguments are well-formed (an
    int or float; a list of dicts with a string ["name"] and a bytes
    ["value"]) and fit the frame format, [progress] and [metrics] do not
    raise. *)
Theorem reporting_rejected_once_complete (E : host) s t tr :
  trackers s !! t = Some tr ->
  (_complete tr = true ->
     forall x,
       (exists e, progress E t x s = (s, Exc e)) /\
       (exists e, metrics E t x s = (s, Exc e))) /\
  (_complete tr = false ->
     (forall v,
        well_formed_progress v = true ->
        fits_frame [json_dumps E (PyDict [("event", PyStr "trainingProgress");
          ("params", PyDict [("trainingSessionId", id tr); ("progress", v)])])] ->
        exists s', progress E t v s = (s', Ok tt)) /\
     (forall l,
        Forall (fun m => well_formed_metric m = true) l ->
        fits_frame (json_dumps E (PyDict [("event", PyStr "trainingMetrics");
          ("params", PyDict [("trainingSessionId", id tr);
                             ("names", PyList (metric_names l))])])
          :: metric_values l) ->
        exists s', metrics E t (PyList l) s = (s', Ok tt))).
Proof.
  intros Ht. split; intros Hc.
  - intros x. by apply (reporting_after_completion E s t tr x).
  - destruct (reporting_while_active E s t tr Ht Hc) as [Hp Hm].
    split; [intros v Hv Hfit|intros l Hl Hfit]; eexists; [by apply Hp|by apply Hm].
Qed.

Lemma fits_sample_progress :
  fits_frame [json_dumps sample_host (PyDict [("event", PyStr "trainingProgress");
    ("params", PyDict [("trainingSessionId", PyStr "t1"); ("progress", PyInt 50)])])].
Proof.
  split; [discriminate|split]; [vm_compute; reflexivity|].
  constructor; [vm_compute; reflexivity|constructor].
Qed.

Lemma fits_sample_metrics :
  fits_frame (json_dumps sample_host (PyDict [("event", PyStr "trainingMetrics");
    ("params", PyDict [("trainingSessionId", PyStr "t1");
                       ("names", PyList (metric_names [sample_metric]))])])
    :: metric_values [sample_metric]).
Proof.
  split; [discriminate|split]; [vm_compute; reflexivity|].
  constructor; [vm_compute; reflexivity|].
  constructor; [vm_compute; reflexivity|constructor].
Qed.

Lemma reporting_rejected_once_complete_witness :
  (exists e, progress sample_host 0 (PyInt 50)
     (state_with_tracker completed_tracker)
     = (state_with_tracker completed_tracker, Exc e)) /\
  (exists s', progress sample_host 0 (PyInt 50) (state_with_tracker fresh_tracker)
     = (s', Ok tt)) /\
  (exists s', metrics sample_host 0 (PyList [sample_metric]) (state_with_tracker fresh_tracker)
     = (s', Ok tt)).
Proof.
  split; [|split].
  - apply (reporting_rejected_once_complete sample_host
             (state_with_tracker completed_tracker) 0 completed_tracker);
      reflexivity.
  - apply (reporting_rejected_once_complete sample_host
             (state_with_tracker fresh_tracker) 0 fresh_tracker);
      [reflexivity|reflexivity|reflexivity|apply fits_sample_progress].
  - apply (reporting_rejected_once_complete sample_host
             (state_with_tracker fresh_tracker) 0 fresh_tracker);
      [reflexivity|reflexivity| |apply fits_sample_metrics].
    constructor; [reflexivity|constructor].
Defined.

(** C10.  [metrics([])] on a tracker whose [_complete] is false returns
    without raising and leaves the state, hence the outbox, as it was. *)
Theorem metrics_empty_list (E : host) s t tr :
  trackers s !! t = Some tr -> _complete tr = false ->
  metrics E t (PyList []) s = (s, Ok tt).
Proof.
  intros Ht Hc. unfold metrics, bind.
  by rewrite (get_tracker_Some E s t tr Ht), Hc.
Qed.

Lemma metrics_empty_list_witness :
  metrics sample_host 0 (PyList []) (state_with_tracker fresh_tracker)
  = (state_with_tracker fresh_tracker, Ok tt).
Proof.
  apply (metrics_empty_list sample_host (state_with_tracker fresh_tracker) 0 fresh_tracker);
    reflexivity.
Defined.

(** ** Control frames *)

(** C2, as the code has it.  For every list of segments the frame format
    can carry, the outbound encoder returns the layout
    [0][count-1 on 4 bytes][(length on 8 bytes, bytes) per segment][0],
    all big-endian, and a reader of that layout gives the identical
    segment list back. *)
Theorem control_frame_roundtrip (toSend : list bytes) :
  fits_frame toSend ->
  exists finalBuffer,
    encodeControlFrame toSend = Some finalBuffer /\
    finalBuffer = control_layout toSend /\
    spec_decode_control_frame finalBuffer = Some toSend.
Proof.
  intros Hfit. exists (control_layout toSend). split; [|split].
  - by apply encodeControlFrame_layout.
  - reflexivity.
  - by apply spec_decode_control_layout.
Qed.

Lemma fits_sample_segments : fits_frame [ascii_bytes "{}"; ascii_bytes "abc"; []].
Proof.
  split; [discriminate|split]; [vm_compute; reflexivity|].
  repeat (constructor; [vm_compute; reflexivity|]). constructor.
Qed.

Lemma control_frame_roundtrip_witness :
  exists finalBuffer,
    encodeControlFrame [ascii_bytes "{}"; ascii_bytes "abc"; []] = Some finalBuffer /\
    finalBuffer = control_layout [ascii_bytes "{}"; ascii_bytes "abc"; []] /\
    spec_decode_control_frame finalBuffer = Some [ascii_bytes "{}"; ascii_bytes "abc"; []].
Proof.
  apply (control_frame_roundtrip [ascii_bytes "{}"; ascii_bytes "abc"; []]).
  apply fits_sample_segments.
Defined.

(** C2, as stated, fails: the inbound decoder of [inner_main] reads another
    layout.  On the frame encoded for ["{}"], [b"abc"], [b""] it takes the
    8 bytes after the tag (the count 2 and the upper half of the first
    length) as one segment length, 2 * 2^32, and the read of that many
    bytes fails; no segment list comes back. *)
Lemma control_frame_inbound_mismatch :
  exists finalBuffer,
    encodeControlFrame [ascii_bytes "{}"; ascii_bytes "abc"; []] = Some finalBuffer /\
    read_frame finalBuffer = None /\
    (exists lenb rest, readexactly 8 (drop 1 finalBuffer) = Some (lenb, rest) /\
                       from_bytes lenb = (2 * 2 ^ 32)%N).
Proof.
  eexists. split; [vm_compute; reflexivity|].
  split; [vm_compute; reflexivity|].
  eexists _, _. split; vm_compute; reflexivity.
Qed.

(** ** Error descriptions *)

Lemma length_str_prefix n s :
  String.length (String.substring 0 n s) = (n `min` String.length s)%nat.
Proof.
  revert s. induction n as [|n IH]; intros [|c s]; simpl; try done.
  by rewrite IH.
Qed.

Lemma prefix_str_prefix n s : String.prefix (String.substring 0 n s) s = true.
Proof.
  revert s. induction n as [|n IH]; intros [|c s]; simpl; try done.
  destruct (Ascii.ascii_dec c c); [apply IH|done].
Qed.

Lemma error_description_shape (e : exn) :
  exists details,
    getErrorFromException e
    = PyDict [("code", PyStr "exception"); ("details", PyStr details)].
Proof. unfold getErrorFromException. eexists; reflexivity. Qed.

(** C9.  The error built for an exception has code ["exception"]; its
    details are the traceback itself when that has at most 10000
    characters, and otherwise the first 10000 characters of the traceback
    followed by the fixed-form note giving the number of characters left
    out. *)
Theorem error_description_truncated (e : exn) :
  exists details,
    getErrorFromException e
    = PyDict [("code", PyStr "exception"); ("details", PyStr details)] /\
    (str_len (traceback_text e) <= 10000 -> details = traceback_text e) /\
    (10000 < str_len (traceback_text e) ->
       details = str_prefix 10000 (traceback_text e)
                 +:+ " (exception shortened - actual exception contained "
                 +:+ pretty (str_len (traceback_text e) - 10000)
                 +:+ " more characters)" /\
       str_len (str_prefix 10000 (traceback_text e)) = 10000 /\
       String.prefix (str_prefix 10000 (traceback_text e)) (traceback_text e) = true).
Proof.
  unfold getErrorFromException.
  destruct (Z.ltb_spec 10000 (str_len (traceback_text e))) as [Hlong|Hshort].
  - eexists. split; [reflexivity|]. split; [lia|]. intros _.
    split; [reflexivity|]. split.
    + unfold str_len, str_prefix in *. rewrite length_str_prefix. lia.
    + apply prefix_str_prefix.
  - eexists. split; [reflexivity|]. split; [done|lia].
Qed.

(** ** Lookups of instantiated models *)

(** C7.  [callEvaluate] on an id that is not in [instantiatedModels]
    returns [{"error": "instantiated_model_not_found"}] at once, in the
    state it was called in: no user code was called and no data loader
    was created (the trace is unchanged).  The same result comes when the
    handle is still instantiating and its future resolves to [None]
    (the instantiation failed or was disposed): nothing is done before the
    wait, nor after it. *)
Theorem callEvaluate_not_found (E : host) (d : list (string * pyval)) (key : string) s :
  dict_get "instantiatedModelId" d = Some (PyStr key) ->
  (instantiatedModels s !! key = None ->
     callEvaluate E (PyDict d) s = Done s not_found_result) /\
  (forall a act,
     instantiatedModels s !! key = Some a ->
     activations s !! a = Some act ->
     stored_model act = None ->
     (modelFuture act = Some PyNone ->
        callEvaluate E (PyDict d) s = Done s not_found_result) /\
     (modelFuture act = None ->
        exists k,
          callEvaluate E (PyDict d) s = Suspended s (AwaitFuture a) k /\
          forall s', k (Ok PyNone) s' = Done s' not_found_result)).
Proof.
  intros Hid. split.
  - intros Hnone. unfold callEvaluate, sync, bind, subscript, as_key, gets, ret.
    by rewrite Hid, Hnone.
  - intros a act Ha Hact Hstored. split; intros Hfut.
    + unfold callEvaluate, sync, bind, subscript, as_key, gets, ret.
      rewrite Hid, Ha. unfold resolve_model. by rewrite Hact, Hstored, Hfut.
    + eexists. split.
      * unfold callEvaluate, sync, bind, subscript, as_key, gets, ret.
        rewrite Hid, Ha. unfold resolve_model. rewrite Hact, Hstored, Hfut.
        reflexivity.
      * done.
Qed.

(** ** Cancellation *)

Lemma on_cancel_appends (E : host) s t tr cb :
  trackers s !! t = Some tr ->
  on_cancel E t cb s
  = (set_trackers (<[t := {| id := id tr; _on_cancel := _on_cancel tr ++ [cb];
                             _complete := _complete tr; cancelled := cancelled tr |}]>
                     (trackers s)) s, Ok tt).
Proof.
  intros Ht. unfold on_cancel, bind. by rewrite (get_tracker_Some E s t tr Ht).
Qed.

Lemma register_all_appends (E : host) t callbacks : forall s tr,
  trackers s !! t = Some tr ->
  register_all E t callbacks s
  = set_trackers (<[t := {| id := id tr; _on_cancel := _on_cancel tr ++ callbacks;
                            _complete := _complete tr; cancelled := cancelled tr |}]>
                    (trackers s)) s.
Proof.
  induction callbacks as [|cb rest IH]; intros s tr Ht.
  - cbn [register_all fold_left]. rewrite app_nil_r.
    destruct s, tr; unfold set_trackers; cbn in *. f_equal.
    symmetry. by apply list_insert_id.
  - unfold register_all in IH |- *. cbn [fold_left].
    rewrite (on_cancel_appends E s t tr cb Ht). cbn [fst].
    rewrite (IH _ {| id := id tr; _on_cancel := _on_cancel tr ++ [cb];
                     _complete := _complete tr; cancelled := cancelled tr |}).
    + unfold set_trackers. cbn [trackers id _on_cancel _complete cancelled
        runningProgram instantiatedModels trainingSessions activations completes
        outbox trace].
      by rewrite list_insert_insert_eq, <- app_assoc.
    + cbn. apply list_lookup_insert_eq. by eapply lookup_lt_Some.
Qed.

Lemma cancel_loop_returns (E : host) callbacks : forall s,
  Forall (callable_returns E) callbacks ->
  cancel_loop E callbacks s
  = (set_trace (trace s ++ cancel_events callbacks) s, Ok tt).
Proof.
  induction callbacks as [|cb rest IH]; intros s Hall.
  - cbn. rewrite app_nil_r. by destruct s.
  - inversion Hall as [|? ? (n & -> & Hn) Hrest]; subst.
    cbn [cancel_loop call].
    destruct (user_call E n [] (trace s)) as [v|e|a] eqn:Hcall.
    + rewrite IH by done. cbn. unfold set_trace. cbn. by rewrite <- app_assoc.
    + by apply Hn in Hcall.
    + rewrite IH by done. cbn. unfold set_trace. cbn. by rewrite <- app_assoc.
Qed.

(** C5, as the code has it.  When [callCancelTrain] is called for a
    session that is in [trainingSessions], whose tracker had the callbacks
    [_on_cancel tr] and then got [callbacks] registered through
    [on_cancel], and none of these callbacks raises, every one of them is
    called exactly once per registration, in registration order, before
    the call returns, and [cancelled] is set; the session stays registered
    and nothing else of it changes.  The loop of lines 199-200 has no
    [try]: without the condition on the callbacks the statement fails, as
    the example after it shows. *)
Theorem cancel_fires_callbacks (E : host) (d : list (string * pyval)) tkey s t tr callbacks :
  dict_get "trainingSessionId" d = Some (PyStr tkey) ->
  trainingSessions s !! tkey = Some t ->
  trackers s !! t = Some tr ->
  Forall (callable_returns E) (_on_cancel tr ++ callbacks) ->
  callCancelTrain E (PyDict d) (register_all E t callbacks s)
  = Done
      (set_trace (trace s ++ cancel_events (_on_cancel tr ++ callbacks))
         (set_trackers (<[t := {| id := id tr; _on_cancel := _on_cancel tr ++ callbacks;
                                  _complete := _complete tr; cancelled := Some true |}]>
                          (trackers s)) s))
      None.
Proof.
  intros Hid Hsession Ht Hall.
  rewrite (register_all_appends E t callbacks s tr Ht).
  set (tr1 := {| id := id tr; _on_cancel := _on_cancel tr ++ callbacks;
                 _complete := _complete tr; cancelled := cancelled tr |}).
  set (s1 := set_trackers (<[t:=tr1]> (trackers s)) s).
  assert (trackers s1 !! t = Some tr1) as Ht1
    by (apply list_lookup_insert_eq; by eapply lookup_lt_Some).
  assert (trainingSessions s1 !! tkey = Some t) as Hsession1 by exact Hsession.
  unfold callCancelTrain, sync, bind, subscript, as_key, gets, ret.
  rewrite Hid, Hsession1, (get_tracker_Some E s1 t tr1 Ht1).
  unfold put_tracker, modify.
  rewrite cancel_loop_returns by done.
  unfold finish, set_trace, set_trackers, s1, tr1. cbn.
  by rewrite list_insert_insert_eq.
Qed.

Lemma cancel_fires_callbacks_witness :
  callCancelTrain sample_host (PyDict [("trainingSessionId", PyStr "t1")])
    (register_all sample_host 0 [PyFunc 10; PyFunc 11] (state_with_tracker fresh_tracker))
  = Done
      (set_trace (trace (state_with_tracker fresh_tracker)
                  ++ cancel_events (_on_cancel fresh_tracker ++ [PyFunc 10; PyFunc 11]))
         (set_trackers (<[0%nat := {| id := id fresh_tracker;
                                      _on_cancel := _on_cancel fresh_tracker ++ [PyFunc 10; PyFunc 11];
                                      _complete := _complete fresh_tracker;
                                      cancelled := Some true |}]>
                          (trackers (state_with_tracker fresh_tracker)))
            (state_with_tracker fresh_tracker)))
      None.
Proof.
  apply (cancel_fires_callbacks sample_host [("trainingSessionId", PyStr "t1")] "t1"
           (state_with_tracker fresh_tracker) 0 fresh_tracker [PyFunc 10; PyFunc 11]);
    [reflexivity|reflexivity|reflexivity|].
  constructor; [|constructor; [|constructor]].
  - exists 10%nat. split; [reflexivity|discriminate].
  - exists 11%nat. split; [reflexivity|discriminate].
Defined.

(** C5, as stated, fails when a callback raises.  Three callbacks are
    registered through [on_cancel], the second of which (callable 11)
    raises: [callCancelTrain] calls the first and the second, the
    exception of the second leaves the call, and the third is never
    called, although it was registered before the cancellation. *)
Lemma cancel_stops_at_raising_callback :
  exists s',
    (_on_cancel <$>
       trackers (register_all raising_host 0 [PyFunc 10; PyFunc 11; PyFunc 12]
                   (state_with_tracker fresh_tracker)) !! 0%nat)
      = Some [PyFunc 10; PyFunc 11; PyFunc 12] /\
    callCancelTrain raising_host (PyDict [("trainingSessionId", PyStr "t1")])
      (register_all raising_host 0 [PyFunc 10; PyFunc 11; PyFunc 12]
         (state_with_tracker fresh_tracker))
      = Raised s' (Traceback "RuntimeError: boom") /\
    trace s' = [EvUserCall 10 []; EvUserCall 11 []] /\
    ~ In (EvUserCall 12 []) (trace s') /\
    (cancelled <$> trackers s' !! 0%nat) = Some (Some true).
Proof.
  eexists. split; [reflexivity|]. split; [vm_compute; reflexivity|].
  split; [reflexivity|]. split; [|reflexivity].
  cbn. intros [H|[H|[]]]; discriminate H.
Qed.

Lemma callEvaluate_not_found_witness :
  callEvaluate sample_host
    (PyDict [("instantiatedModelId", PyStr "m1"); ("params", PyList [])]) initial_state
  = Done initial_state not_found_result.
Proof.
  apply (callEvaluate_not_found sample_host
           [("instantiatedModelId", PyStr "m1"); ("params", PyList [])] "m1" initial_state);
    reflexivity.
Defined.

(** ** The dispatcher *)

(** C8, as the code has it.  When the segment is not JSON, or names a
    method that is not in [rpc], [processMessage] raises in its own task
    before any handler runs: the state is the one it started from, so
    nothing was sent (no reply, whether or not the message carries an
    id), no registry changed and no collaborator was called. *)
Theorem processMessage_undispatchable (E : host) (buf : bytes) s :
  json_loads E buf = None \/
  (exists d name,
     json_loads E buf = Some (PyDict d) /\
     dict_get "method" d = Some (PyStr name) /\
     rpc E !! name = None) ->
  exists e, processMessage E buf s = Raised s e.
Proof.
  intros [Hbad|(d & name & Hparsed & Hmethod & Hrpc)]; unfold processMessage.
  - rewrite Hbad. eexists; reflexivity.
  - rewrite Hparsed. unfold sync, bind, subscript. rewrite Hmethod.
    cbn -[rpc lookup]. rewrite Hrpc. eexists; reflexivity.
Qed.

Lemma processMessage_undispatchable_witness :
  (exists e, processMessage sample_host (ascii_bytes "{") initial_state
             = Raised initial_state e) /\
  (exists e, processMessage sample_host (sample_dumps unknown_method_message) initial_state
             = Raised initial_state e).
Proof.
  split.
  - apply (processMessage_undispatchable sample_host (ascii_bytes "{") initial_state).
    left. reflexivity.
  - apply (processMessage_undispatchable sample_host
             (sample_dumps unknown_method_message) initial_state).
    right. eexists _, "callPredict". split; [vm_compute; reflexivity|].
    split; reflexivity.
Defined.

(** C8, as stated, fails: a message with the correlation id ["7"] that
    names the unknown method ["callPredict"] gets no reply; the task
    raises and the outbox stays empty. *)
Lemma unknown_method_gets_no_reply :
  exists e,
    json_loads sample_host (sample_dumps unknown_method_message)
      = Some unknown_method_message /\
    py_in sample_host "id" (PyDict [("instantiatedModelId", PyStr "m1"); ("id", PyStr "7")])
      initial_state = (initial_state, Ok true) /\
    processMessage sample_host (sample_dumps unknown_method_message) initial_state
      = Raised initial_state e /\
    outbox initial_state = [].
Proof.
  eexists. split; [vm_compute; reflexivity|].
  split; [reflexivity|]. split; [|reflexivity].
  vm_compute. reflexivity.
Qed.

(** C3, on the code.  The method table holds the seven handlers it lists
    and nothing else: [callCancelTrain] is defined but is under no name
    in [rpc], so a control frame naming it (or [cancelTrain]) is not
    routed to it. *)
Theorem rpc_entries (E : host) :
  rpc E !! "initialize" = Some (initialize E) /\
  rpc E !! "callCreateModelState" = Some (callCreateModelState E) /\
  rpc E !! "callInstantiateModel" = Some (callInstantiateModel E) /\
  rpc E !! "callDisposeInstantiatedModel" = Some (callDisposeInstantiatedModel E) /\
  rpc E !! "callTrain" = Some (callTrain E) /\
  rpc E !! "callEvaluate" = Some (callEvaluate E) /\
  rpc E !! "callGetModelState" = Some (callGetModelState E) /\
  rpc E !! "callCancelTrain" = None /\
  rpc E !! "cancelTrain" = None /\
  size (rpc E) = 7%nat.
Proof. repeat split; reflexivity. Qed.

(** A cancellation frame for a running session whose tracker holds two
    callbacks: the task raises, no callback is called and [cancelled] is
    not set. *)
Lemma cancel_frame_not_dispatched :
  let s := register_all sample_host 0 [PyFunc 10; PyFunc 11]
             (state_with_tracker fresh_tracker) in
  json_loads sample_host (sample_dumps cancel_message) = Some cancel_message /\
  exists e, processMessage sample_host (sample_dumps cancel_message) s = Raised s e /\
            trace s = [] /\
            (cancelled <$> trackers s !! 0%nat) = Some None.
Proof.
  split; [vm_compute; reflexivity|].
  eexists. split; [vm_compute; reflexivity|]. split; reflexivity.
Qed.

(** ** Training sessions *)

(** C4, on the code.  When the instantiated model id is not in
    [instantiatedModels], [callTrain] returns the not-found result from
    line 163, after line 160 has registered the new tracker and without
    the [del] of lines 189 and 192: the session is still in
    [trainingSessions] when the call has returned. *)
Theorem callTrain_not_found_keeps_session (E : host) (d : list (string * pyval)) tkey key s :
  dict_get "trainingSessionId" d = Some (PyStr tkey) ->
  dict_get "instantiatedModelId" d = Some (PyStr key) ->
  instantiatedModels s !! key = None ->
  exists s',
    callTrain E (PyDict d) s = Done s' not_found_result /\
    trainingSessions s' !! tkey = Some (length (trackers s)) /\
    trackers s' !! length (trackers s)
      = Some {| id := PyStr tkey; _on_cancel := []; _complete := false; cancelled := None |}.
Proof.
  intros Htid Hid Hnone. eexists. split; [|split].
  - unfold callTrain, sync, bind, subscript, as_key, gets, ret, new_TrainTracker, modify.
    rewrite Htid, Hid. cbn -[lookup insert]. rewrite Hnone. reflexivity.
  - cbn -[lookup insert]. apply lookup_insert_eq.
  - cbn -[lookup insert]. rewrite lookup_app_r by done.
    by rewrite Nat.sub_diag.
Qed.

Lemma callTrain_not_found_keeps_session_witness :
  exists s',
    callTrain sample_host
      (PyDict [("trainingSessionId", PyStr "t1"); ("instantiatedModelId", PyStr "m1");
               ("params", PyList [])]) initial_state
    = Done s' not_found_result /\
    trainingSessions s' !! "t1" = Some (length (trackers initial_state)) /\
    trackers s' !! length (trackers initial_state)
      = Some {| id := PyStr "t1"; _on_cancel := []; _complete := false; cancelled := None |}.
Proof.
  apply (callTrain_not_found_keeps_session sample_host
           [("trainingSessionId", PyStr "t1"); ("instantiatedModelId", PyStr "m1");
            ("params", PyList [])] "t1" "m1" initial_state); reflexivity.
Defined.

(** ** Disposal *)

(** C1, on the code.  [callDisposeInstantiatedModel] on a registered id
    removes the id from [instantiatedModels] and does nothing else: line
    156 looks the ["dispose"] closure up without calling it, so the trace
    of calls, the activation (its [disposed] flag, its future) and the
    outbox are unchanged. *)
Theorem dispose_only_unregisters (E : host) (d : list (string * pyval)) key a s :
  dict_get "instantiatedModelId" d = Some (PyStr key) ->
  instantiatedModels s !! key = Some a ->
  callDisposeInstantiatedModel E (PyDict d) s
  = Done (set_instantiatedModels (delete key (instantiatedModels s)) s) None.
Proof.
  intros Hid Ha.
  unfold callDisposeInstantiatedModel, sync, bind, subscript, as_key, gets, ret, modify.
  rewrite Hid. cbn -[lookup delete]. by rewrite Ha.
Qed.

(** The first run: after the dispose the handle is gone, and the model's
    [dispose] (callable 5) was never called, although the closure stored
    for the handle is [dispose2] of the model, which calls it. *)
Lemma ready_then_disposed_run :
  exists s,
    ready_then_disposed = Done s None /\
    instantiatedModels s !! "m1" = None /\
    called 5 (trace s) = false /\
    (stored_dispose <$> activations s !! 0%nat) = Some (dispose2 sample_model) /\
    called 5 (trace (call_stored_dispose sample_host 0 s).1) = true.
Proof.
  eexists. split; [vm_compute; reflexivity|].
  repeat split; vm_compute; reflexivity.
Qed.

(** The second run: the dispose that arrives during the instantiation
    leaves [disposed] false, so when the instantiation completes the model
    is kept ready and its [dispose] is not called. *)
Lemma disposed_then_ready_run :
  exists s,
    disposed_then_ready = Done s ok_result /\
    instantiatedModels s !! "m1" = None /\
    called 5 (trace s) = false /\
    (disposed <$> activations s !! 0%nat) = Some false /\
    (modelFuture <$> activations s !! 0%nat) = Some (Some sample_model).
Proof.
  eexists. split; [vm_compute; reflexivity|].
  repeat split; vm_compute; reflexivity.
Qed.

Lemma dispose_only_unregisters_witness :
  callDisposeInstantiatedModel sample_host dispose_args (coro_state instantiating)
  = Done (set_instantiatedModels
            (delete "m1" (instantiatedModels (coro_state instantiating)))
            (coro_state instantiating)) None.
Proof.
  apply (dispose_only_unregisters sample_host
           [("instantiatedModelId", PyStr "m1")] "m1" 0 (coro_state instantiating));
    vm_compute; reflexivity.
Defined.

(** ** What the handlers do with an exception of user code *)

(** The result every [except:] clause builds. *)
Lemma error_result_exception (e : exn) :
  exists details,
    error_result e
    = Some {| result := PyDict [("error",
                PyDict [("code", PyStr "exception"); ("details", PyStr details)])];
              alsoSend := None |}.
Proof.
  destruct (error_description_shape e) as [details Hd].
  exists details. unfold error_result. by rewrite Hd.
Qed.

(** [callEvaluate] on a ready model whose [evaluate] raises, at the call
    or when its awaitable is awaited: the call returns the error built
    from the exception. *)
Lemma callEvaluate_user_exception (E : host) (d : list (string * pyval)) key a act
    model params map n s e :
  dict_get "instantiatedModelId" d = Some (PyStr key) ->
  instantiatedModels s !! key = Some a ->
  activations s !! a = Some act ->
  stored_model act = Some model ->
  dict_get "params" d = Some params ->
  createDataLoaderMap E params = Ok map ->
  capability E model "evaluate" = Ok (PyFunc n) ->
  let called_in := trace s ++ [EvCreateDataLoaderMap (length (completes s)) params] in
  (user_call E n [map] called_in = URaise e ->
     exists s', callEvaluate E (PyDict d) s = Done s' (error_result e)) /\
  (forall aw, user_call E n [map] called_in = UAwaitable aw ->
     exists s1 k,
       callEvaluate E (PyDict d) s = Suspended s1 (AwaitUser aw) k /\
       forall s2, exists s3, k (Exc e) s2 = Done s3 (error_result e)).
Proof.
  intros Hid Ha Hact Hstored Hparams Hmap Hcap called_in.
  assert (forall r, user_call E n [map] called_in = r ->
            exists s1, callEvaluate E (PyDict d) s
            = await_user r
                (fun w =>
                   match w with
                   | Ok awaitedres =>
                       sync
                         (set_complete (length (completes s)) ;;
                          match awaitedres with
                          | PyList l =>
                              match outputs_loop E l [] [] with
                              | Ok (outputs, alsoSend) =>
                                  ret (Some {| result := PyDict [("outputs", PyList outputs)];
                                               alsoSend := Some [bytes_join alsoSend] |})
                              | Exc e => ret (error_result e)
                              end
                          | _ => ret (error_result (runtime_exn E "Exception"
                              "Evaluate: Expected return value of 'evaluate' to be a list."))
                          end)
                         finish
                   | Exc e => sync (set_complete (length (completes s)) ;; ret (error_result e)) finish
                   end) s1) as Hrun.
  { intros r Hr. eexists.
    unfold callEvaluate, sync, bind, subscript, as_key, gets, ret.
    rewrite Hid, Ha. unfold resolve_model. rewrite Hact, Hstored.
    unfold new_complete, call_createDataLoaderMap, log, lift, modify, bind.
    rewrite Hparams. cbn -[lookup]. rewrite Hmap.
    unfold invoke. rewrite Hcap. unfold call. cbn -[lookup].
    fold called_in. rewrite Hr. reflexivity. }
  split.
  - intros Hraise. destruct (Hrun _ Hraise) as [s1 ->].
    eexists. reflexivity.
  - intros aw Haw. destruct (Hrun _ Haw) as [s1 ->].
    eexists _, _. split; [reflexivity|].
    intros s2. eexists. reflexivity.
Qed.

(** ** The return paths of [callTrain] that remove the session *)

Section TrainProofs.

Variable E : host.

Lemma same_registries_refl s : same_registries s s.
Proof. by repeat split. Qed.

Lemma same_registries_trans s1 s2 s3 :
  same_registries s1 s2 -> same_registries s2 s3 -> same_registries s1 s3.
Proof.
  intros (?&?&?&?&?&?) (?&?&?&?&?&?). repeat split; congruence.
Qed.

Lemma sendEventToParent_frame event params segs s :
  same_registries s (sendEventToParent E event params segs s).1.
Proof.
  unfold sendEventToParent.
  destruct (encodeControlFrame _); cbn; [by repeat split|apply same_registries_refl].
Qed.

Lemma tracker_step_frame t c s : same_registries s (tracker_step E t c s).
Proof.
  destruct c as [cb|v|v]; unfold tracker_step, on_cancel, progress, metrics, bind, get_tracker.
  - destruct (trackers s !! t); cbn; [|apply same_registries_refl].
    repeat split. cbn. apply length_insert.
  - destruct (trackers s !! t) as [tr|]; cbn; [|apply same_registries_refl].
    destruct (_complete tr); cbn; [apply same_registries_refl|].
    destruct v; cbn; try apply same_registries_refl; apply sendEventToParent_frame.
  - destruct (trackers s !! t) as [tr|]; cbn; [|apply same_registries_refl].
    destruct (_complete tr); cbn; [apply same_registries_refl|].
    destruct v as [| | | | | |l| | | |]; cbn; try apply same_registries_refl.
    destruct (length l =? 0)%nat; cbn; [apply same_registries_refl|].
    destruct (metrics_loop E l [] []) as [[names values]|e]; cbn;
      [apply sendEventToParent_frame|apply same_registries_refl].
Qed.

Lemma tracker_steps_frame t calls : forall s,
  same_registries s (fold_left (fun st c => tracker_step E t c st) calls s).
Proof.
  induction calls as [|c rest IH]; intros s; cbn [fold_left].
  - apply same_registries_refl.
  - eapply same_registries_trans; [apply tracker_step_frame|apply IH].
Qed.

(** Lines 184-185 and 192, or 187-190: the tracker is completed and the
    session deleted. *)
Lemma train_epilogue t c tkey x (r : option response) s :
  (t < length (trackers s))%nat ->
  trainingSessions s !! tkey = Some x ->
  exists s',
    sync (set_tracker_complete E t ;; set_complete c ;;
          del_trainingSessions E tkey ;; ret r) finish s = Done s' r /\
    trainingSessions s' !! tkey = None /\
    (_complete <$> trackers s' !! t) = Some true.
Proof.
  intros Hlt Hsession.
  destruct (lookup_lt_is_Some_2 _ _ Hlt) as [tr Htr].
  unfold set_tracker_complete, put_tracker, set_complete, modify,
    del_trainingSessions, ret, sync, bind.
  rewrite (get_tracker_Some E s t tr Htr). cbn -[lookup delete insert].
  rewrite Hsession. eexists. split; [reflexivity|]. split.
  - cbn -[lookup delete]. apply lookup_delete_eq.
  - cbn -[lookup]. by rewrite list_lookup_insert_eq.
Qed.

(** [callTrain] on a ready model whose [train] returns or raises at the
    call: in both cases the call returns with the session removed from
    [trainingSessions], whatever user code did with its tracker. *)
Lemma callTrain_removes_session (d : list (string * pyval)) tkey key a act
    model params map n s :
  dict_get "trainingSessionId" d = Some (PyStr tkey) ->
  dict_get "instantiatedModelId" d = Some (PyStr key) ->
  instantiatedModels s !! key = Some a ->
  activations s !! a = Some act ->
  stored_model act = Some model ->
  dict_get "params" d = Some params ->
  createDataLoaderMap E params = Ok map ->
  capability E model "train" = Ok (PyFunc n) ->
  let args := [map; PyTracker (length (trackers s))] in
  let called_in := trace s ++ [EvCreateDataLoaderMap (length (completes s)) params] in
  (forall v, user_call E n args called_in = UReturn v ->
     exists s', callTrain E (PyDict d) s = Done s' ok_result /\
                trainingSessions s' !! tkey = None) /\
  (forall e, user_call E n args called_in = URaise e ->
     exists s', callTrain E (PyDict d) s = Done s' (error_result e) /\
                trainingSessions s' !! tkey = None).
Proof.
  intros Htid Hid Ha Hact Hstored Hparams Hmap Hcap args called_in.
  set (t := length (trackers s)).
  assert (exists s1,
            callTrain E (PyDict d) s
            = await_user (user_call E n args called_in)
                (fun w =>
                   match w with
                   | Ok _ =>
                       sync (set_tracker_complete E t ;; set_complete (length (completes s)) ;;
                             del_trainingSessions E tkey ;; ret ok_result) finish
                   | Exc e =>
                       sync (set_tracker_complete E t ;; set_complete (length (completes s)) ;;
                             del_trainingSessions E tkey ;; ret (error_result e)) finish
                   end) s1 /\
            (t < length (trackers s1))%nat /\
            trainingSessions s1 !! tkey = Some t) as (s1 & Hrun & Hlt & Hsession).
  { eexists. split.
    - unfold callTrain, sync, bind, subscript, as_key, gets, ret, new_TrainTracker, modify.
      rewrite Htid, Hid. cbn -[lookup insert]. rewrite Ha.
      unfold resolve_model. cbn -[lookup insert]. rewrite Hact, Hstored.
      unfold sync, new_complete, call_createDataLoaderMap, log, lift, modify, bind.
      rewrite Hparams. cbn -[lookup insert]. rewrite Hmap.
      unfold invoke_train. rewrite Hcap. unfold call. cbn -[lookup insert].
      reflexivity.
    - match goal with
      | |- context [fold_left ?f ?calls ?s0] =>
          pose proof (tracker_steps_frame t calls s0) as (Hts & _ & _ & _ & _ & Hlen)
      end.
      split.
      + eapply Nat.lt_le_trans; [|apply Nat.eq_le_incl; symmetry; exact Hlen].
        cbn. rewrite length_app. cbn. unfold t. lia.
      + etrans; [exact (f_equal (fun m => m !! tkey) Hts)|].
        cbn -[lookup insert]. apply lookup_insert_eq. }
  rewrite Hrun. split.
  - intros v ->. cbn [await_user].
    destruct (train_epilogue t (length (completes s)) tkey t ok_result s1 Hlt Hsession)
      as (s' & Hdone & Hgone & _).
    exists s'. split; [exact Hdone|exact Hgone].
  - intros e ->. cbn [await_user].
    destruct (train_epilogue t (length (completes s)) tkey t (error_result e) s1 Hlt Hsession)
      as (s' & Hdone & Hgone & _).
    exists s'. split; [exact Hdone|exact Hgone].
Qed.

End TrainProofs.

(** * Further properties of the code *)

(** ** Frames: when the encoder raises, and what the decoder consumes *)

Lemma write_segments_Some_fits toSend : forall buf position r,
  write_segments buf position toSend = Some r ->
  Forall (fun el => Z.of_nat (length el) < 2 ^ 64) toSend.
Proof.
  induction toSend as [|el rest IH]; intros buf position r Hw; [constructor|].
  cbn [write_segments] in Hw.
  destruct (to_bytes 8 (Z.of_nat (length el))) as [lenb|] eqn:Hlen; [|done].
  apply to_bytes_inv in Hlen as [[_ Hlt] _].
  constructor; [exact Hlt|]. by eapply IH.
Qed.

(** The encoder returns a frame exactly for the segment lists the format
    can carry: it raises [OverflowError] on an empty list (the count minus
    one is negative), on 2^32 + 1 segments or more, and on a segment of
    2^64 bytes or more.  A frame has 6 + 8 * count + total size bytes. *)
Theorem encodeControlFrame_defined (toSend : list bytes) :
  (is_Some (encodeControlFrame toSend) <-> fits_frame toSend) /\
  (forall finalBuffer,
     encodeControlFrame toSend = Some finalBuffer ->
     length finalBuffer = (6 + length toSend * 8 + argsTotalSize toSend)%nat).
Proof.
  assert (is_Some (encodeControlFrame toSend) -> fits_frame toSend) as Hfits.
  { intros [b Hb]. unfold encodeControlFrame in Hb.
    destruct (index_assign _ 0 x00) as [b0|]; [|done].
    destruct (to_bytes 4 (Z.of_nat (length toSend) - 1)) as [cnt|] eqn:Hcnt; [|done].
    apply to_bytes_inv in Hcnt as [[Hpos Hlt] _].
    destruct (write_segments _ 5 toSend) as [[b1 position]|] eqn:Hw; [|done].
    split; [|split].
    - intros ->. simpl in Hpos. lia.
    - exact Hlt.
    - by eapply write_segments_Some_fits. }
  split; [split; [exact Hfits|]|].
  - intros Hfit. rewrite encodeControlFrame_layout by done. by eexists.
  - intros b Hb. assert (fits_frame toSend) as Hfit by (apply Hfits; by eexists).
    rewrite encodeControlFrame_layout in Hb by done. injection Hb as <-.
    unfold control_layout. rewrite !length_app, length_be, length_wire_segments.
    simpl. lia.
Qed.

Lemma readexactly_inv n s a b :
  readexactly n s = Some (a, b) -> s = a ++ b /\ N.of_nat (length a) = n.
Proof.
  unfold readexactly. destruct (N.leb_spec n (N.of_nat (length s))); [|done].
  intros [= <- <-]. split; [by rewrite take_drop|].
  rewrite length_take. lia.
Qed.

Lemma be_snoc len n : be (S len) n = be len (n / 256)%N ++ [byte_of_N n].
Proof. reflexivity. Qed.

Lemma be_from_bytes (l : bytes) : be (length l) (from_bytes l) = l.
Proof.
  induction l as [|x l IH] using rev_ind; [done|].
  rewrite length_app, Nat.add_1_r, be_snoc, from_bytes_snoc.
  pose proof (Byte.to_N_bounded x).
  replace ((from_bytes l * 256 + Byte.to_N x) / 256)%N with (from_bytes l)
    by (apply N.div_unique with (Byte.to_N x); lia).
  rewrite IH. f_equal. f_equal. unfold byte_of_N.
  replace ((from_bytes l * 256 + Byte.to_N x) mod 256)%N with (Byte.to_N x)
    by (apply N.mod_unique with (from_bytes l); lia).
  by rewrite Byte.of_to_N.
Qed.

Lemma from_bytes_bound (l : bytes) : (from_bytes l < 256 ^ N.of_nat (length l))%N.
Proof.
  induction l as [|x l IH] using rev_ind; [done|].
  rewrite length_app, Nat.add_1_r, from_bytes_snoc, Nat2N.inj_succ, N.pow_succ_r'.
  pose proof (Byte.to_N_bounded x). lia.
Qed.

(** A length prefix read off the stream, put back in front of what it
    announced. *)
Lemma read_segment_inv s lenb s1 segment_data s2 :
  readexactly 8 s = Some (lenb, s1) ->
  readexactly (from_bytes lenb) s1 = Some (segment_data, s2) ->
  s = wire_segment segment_data ++ s2 /\ Z.of_nat (length segment_data) < 2 ^ 64.
Proof.
  intros H8 Hdata.
  apply readexactly_inv in H8 as [-> Hlen8].
  apply readexactly_inv in Hdata as [-> Hlen].
  assert (length lenb = 8%nat) as Hl by lia.
  pose proof (from_bytes_bound lenb) as Hb. rewrite Hl in Hb.
  change (256 ^ N.of_nat 8)%N with (2 ^ 64)%N in Hb.
  split; [|lia].
  unfold wire_segment. rewrite Hlen, <- Hl, be_from_bytes. by rewrite <- app_assoc.
Qed.

Lemma read_segments_inv num_segments : forall s data rest,
  read_segments num_segments s = Some (data, rest) ->
  length data = num_segments /\
  s = concat (map wire_segment data) ++ rest /\
  Forall (fun el => Z.of_nat (length el) < 2 ^ 64) data.
Proof.
  induction num_segments as [|k IH]; intros s data rest Hr; cbn [read_segments] in Hr.
  - injection Hr as <- <-. by repeat split.
  - destruct (readexactly 8 s) as [[lenb s1]|] eqn:H8; [|done].
    destruct (readexactly (from_bytes lenb) s1) as [[segment_data s2]|] eqn:Hd; [|done].
    destruct (read_segments k s2) as [[more s3]|] eqn:Hk; [|done].
    injection Hr as <- <-.
    destruct (read_segment_inv _ _ _ _ _ H8 Hd) as [-> Hlt].
    destruct (IH _ _ _ Hk) as (Hlen & -> & Hall).
    cbn [length map concat]. split; [by rewrite Hlen|]. split.
    + by rewrite <- app_assoc.
    + by constructor.
Qed.

(** The inbound decoder on a control frame: it returns the segment [data]
    and leaves [rest] exactly when the stream starts with the tag 0, the
    length of [data] on 8 bytes and [data]; a stream cut short inside the
    frame gives no frame. *)
Theorem read_frame_rpc_iff (s segment_data rest : bytes) :
  read_frame s = Some (Rpc segment_data, rest) <->
  s = [x00] ++ wire_segment segment_data ++ rest /\
  Z.of_nat (length segment_data) < 2 ^ 64.
Proof.
  split.
  - unfold read_frame. intros Hr.
    destruct (readexactly 1 s) as [[first s1]|] eqn:H1; [|done].
    apply readexactly_inv in H1 as [-> Hlen1].
    destruct first as [|b [|? ?]]; try (simpl in Hlen1; lia).
    cbn [hd] in Hr. destruct (Byte.eqb b x00) eqn:Hb.
    + apply Byte.byte_dec_bl in Hb as ->.
      destruct (readexactly 8 s1) as [[lenb s2]|] eqn:H8; [|done].
      destruct (readexactly (from_bytes lenb) s2) as [[d s3]|] eqn:Hd; [|done].
      injection Hr as <- <-.
      destruct (read_segment_inv _ _ _ _ _ H8 Hd) as [-> Hlt].
      by split.
    + destruct (readexactly 4 s1) as [[idb s2]|]; [|done].
      destruct (readexactly 4 s2) as [[numb s3]|]; [|done].
      by destruct (read_segments _ s3) as [[data s4]|].
  - intros [-> Hlt]. by apply read_frame_rpc.
Qed.

(** The inbound decoder on a data-chunk frame: any non-zero tag, the
    request id and the segment count on 4 bytes each, then the
    length-prefixed segments. *)
Theorem read_frame_data_iff (s : bytes) (request_id : N) (data : list bytes) (rest : bytes) :
  read_frame s = Some (ProvideData request_id data, rest) <->
  exists tag,
    tag <> x00 /\
    s = [tag] ++ be 4 request_id ++ be 4 (N.of_nat (length data))
        ++ concat (map wire_segment data) ++ rest /\
    (request_id < 2 ^ 32)%N /\ Z.of_nat (length data) < 2 ^ 32 /\
    Forall (fun el => Z.of_nat (length el) < 2 ^ 64) data.
Proof.
  split.
  - unfold read_frame. intros Hr.
    destruct (readexactly 1 s) as [[first s1]|] eqn:H1; [|done].
    apply readexactly_inv in H1 as [-> Hlen1].
    destruct first as [|b [|? ?]]; try (simpl in Hlen1; lia).
    cbn [hd] in Hr. destruct (Byte.eqb b x00) eqn:Hb.
    + destruct (readexactly 8 s1) as [[lenb s2]|]; [|done].
      by destruct (readexactly (from_bytes lenb) s2) as [[d s3]|].
    + destruct (readexactly 4 s1) as [[idb s2]|] eqn:Hid; [|done].
      destruct (readexactly 4 s2) as [[numb s3]|] eqn:Hnum; [|done].
      destruct (read_segments _ s3) as [[segs s4]|] eqn:Hsegs; [|done].
      injection Hr as <- <- <-.
      apply readexactly_inv in Hid as [-> Hlid].
      apply readexactly_inv in Hnum as [-> Hlnum].
      apply read_segments_inv in Hsegs as (Hlen & -> & Hall).
      assert (length idb = 4%nat) as Hl4 by lia.
      assert (length numb = 4%nat) as Hn4 by lia.
      pose proof (from_bytes_bound idb) as Hbid. rewrite Hl4 in Hbid.
      pose proof (from_bytes_bound numb) as Hbnum. rewrite Hn4 in Hbnum.
      change (256 ^ N.of_nat 4)%N with (2 ^ 32)%N in *.
      exists b. split; [by apply Byte.eqb_false|].
      split; [|split; [done|split; [lia|done]]].
      rewrite Hlen, N2Nat.id.
      rewrite <- Hl4 at 1. rewrite be_from_bytes.
      rewrite <- Hn4 at 1. by rewrite be_from_bytes.
  - intros (tag & Htag & -> & Hid & Hcount & Hall). unfold read_frame.
    rewrite (readexactly_app [tag]). cbn [hd].
    destruct (Byte.eqb tag x00) eqn:Hb; [by apply Byte.byte_dec_bl in Hb|].
    rewrite (readexactly_be 4), (readexactly_be 4).
    rewrite !from_bytes_be_small
      by (change (256 ^ N.of_nat 4)%N with (2 ^ 32)%N; lia).
    rewrite Nat2N.id. by rewrite read_segments_wire.
Qed.

Lemma readexactly_short n (s : bytes) :
  (N.of_nat (length s) < n)%N -> readexactly n s = None.
Proof.
  intros H. unfold readexactly.
  destruct (N.leb_spec n (N.of_nat (length s))); [lia|done].
Qed.

(** A control frame cut anywhere before its end gives no frame: the
    decoder waits for (here: fails on) the missing bytes and never returns
    a shorter segment. *)
Theorem read_frame_truncated (segment_data : bytes) (k : nat) :
  Z.of_nat (length segment_data) < 2 ^ 64 ->
  (k < length ([x00] ++ wire_segment segment_data))%nat ->
  read_frame (take k ([x00] ++ wire_segment segment_data)) = None.
Proof.
  intros Hfit Hk. unfold wire_segment in *.
  rewrite !length_app, length_be in Hk. cbn [length] in Hk.
  destruct k as [|k]; [done|].
  cbn [app take]. unfold read_frame.
  change (x00 :: ?l) with ([x00] ++ l). rewrite (readexactly_app [x00]). cbn [hd Byte.eqb].
  destruct (Nat.lt_ge_cases k 8) as [Hshort|Hlong].
  - rewrite readexactly_short; [done|]. rewrite length_take, length_app, length_be. lia.
  - rewrite take_app, length_be, take_ge by (rewrite length_be; lia).
    rewrite (readexactly_be 8), from_bytes_length by done.
    rewrite readexactly_short; [done|]. rewrite length_take. lia.
Qed.

Lemma read_frame_truncated_witness :
  read_frame (take 10 ([x00] ++ wire_segment (ascii_bytes "abc"))) = None.
Proof.
  apply (read_frame_truncated (ascii_bytes "abc") 10);
    [vm_compute; reflexivity|vm_compute; lia].
Defined.

(** ** Training tracker: arguments that are refused *)

Section TrackerEdges.

Variable E : host.

Lemma metrics_loop_malformed l : forall nameslist byteslist,
  Exists (fun m => well_formed_metric m = false) l ->
  exists e, metrics_loop E l nameslist byteslist = Exc e.
Proof.
  induction l as [|m l IH]; intros ns bs Hbad; [by apply Exists_nil in Hbad|].
  destruct m as [| | | | | | |d| | |]; cbn [metrics_loop]; try (eexists; reflexivity).
  destruct (dict_get "name" d) as [[| | | |n| | | | | |]|] eqn:Hn;
    try (eexists; reflexivity).
  destruct (dict_get "value" d) as [[| | | | |b| | | | |]|] eqn:Hv;
    try (eexists; reflexivity).
  apply Exists_cons in Hbad as [Hhd|Htl]; [|by apply IH].
  unfold well_formed_metric in Hhd. cbn [metric_name metric_value] in Hhd.
  by rewrite Hn, Hv in Hhd.
Qed.

(** [progress] takes an int or a float and nothing else: any other value
    ([True], a string, [None], ...) raises and nothing is sent, on an
    active tracker as on a completed one. *)
Theorem progress_rejects_other_types s t tr v :
  trackers s !! t = Some tr ->
  well_formed_progress v = false ->
  exists e, progress E t v s = (s, Exc e).
Proof.
  intros Ht Hv. unfold progress, bind. rewrite (get_tracker_Some E s t tr Ht).
  destruct (_complete tr); [eexists; reflexivity|].
  destruct v; try discriminate Hv; eexists; reflexivity.
Qed.

(** [metrics] is all or nothing: if its argument is not a list, or one
    element of the list is not a dict with a string ["name"] and a bytes
    ["value"], it raises and sends nothing, also when the elements before
    the bad one were well-formed. *)
Theorem metrics_all_or_nothing s t tr v :
  trackers s !! t = Some tr ->
  match v with
  | PyList l => Exists (fun m => well_formed_metric m = false) l
  | _ => True
  end ->
  exists e, metrics E t v s = (s, Exc e).
Proof.
  intros Ht Hv. unfold metrics, bind. rewrite (get_tracker_Some E s t tr Ht).
  destruct (_complete tr); [eexists; reflexivity|].
  destruct v as [| | | | | |l| | | |]; try (eexists; reflexivity).
  destruct l as [|m l]; [by apply Exists_nil in Hv|].
  cbn [length Nat.eqb].
  destruct (metrics_loop_malformed (m :: l) [] [] Hv) as [e ->].
  eexists; reflexivity.
Qed.

(** ** Cancellation: unknown sessions, repeated calls, raising callbacks *)

Lemma callCancelTrain_run (d : list (string * pyval)) tkey s t tr :
  dict_get "trainingSessionId" d = Some (PyStr tkey) ->
  trainingSessions s !! tkey = Some t ->
  trackers s !! t = Some tr ->
  callCancelTrain E (PyDict d) s
  = sync (cancel_loop E (_on_cancel tr) ;; ret None) finish
      (set_trackers (<[t := {| id := id tr; _on_cancel := _on_cancel tr;
                               _complete := _complete tr; cancelled := Some true |}]>
                       (trackers s)) s).
Proof.
  intros Hid Hsession Ht.
  unfold callCancelTrain, sync, bind, subscript, as_key, gets, ret.
  rewrite Hid, Hsession, (get_tracker_Some E s t tr Ht).
  reflexivity.
Qed.

(** [callCancelTrain] for an id that is not a running session (never
    started, or already finished) does nothing and does not raise. *)
Theorem callCancelTrain_unknown_session (d : list (string * pyval)) tkey s :
  dict_get "trainingSessionId" d = Some (PyStr tkey) ->
  trainingSessions s !! tkey = None ->
  callCancelTrain E (PyDict d) s = Done s None.
Proof.
  intros Hid Hnone.
  unfold callCancelTrain, sync, bind, subscript, as_key, gets, ret.
  by rewrite Hid, Hnone.
Qed.

(** Cancelling is not guarded by [cancelled]: a second [callCancelTrain]
    for the same session calls every callback a second time. *)
Theorem callCancelTrain_twice (d : list (string * pyval)) tkey s t tr :
  dict_get "trainingSessionId" d = Some (PyStr tkey) ->
  trainingSessions s !! tkey = Some t ->
  trackers s !! t = Some tr ->
  Forall (callable_returns E) (_on_cancel tr) ->
  exists s1 s2,
    callCancelTrain E (PyDict d) s = Done s1 None /\
    callCancelTrain E (PyDict d) s1 = Done s2 None /\
    trace s2 = trace s ++ cancel_events (_on_cancel tr) ++ cancel_events (_on_cancel tr).
Proof.
  intros Hid Hsession Ht Hall.
  set (tr1 := {| id := id tr; _on_cancel := _on_cancel tr;
                 _complete := _complete tr; cancelled := Some true |}).
  set (s0 := set_trackers (<[t:=tr1]> (trackers s)) s).
  set (s1 := set_trace (trace s0 ++ cancel_events (_on_cancel tr)) s0).
  assert (trackers s1 !! t = Some tr1) as Ht1
    by (apply list_lookup_insert_eq; by eapply lookup_lt_Some).
  set (s1' := set_trackers (<[t:=tr1]> (trackers s1)) s1).
  exists s1, (set_trace (trace s1' ++ cancel_events (_on_cancel tr)) s1').
  split; [|split].
  - rewrite (callCancelTrain_run d tkey s t tr Hid Hsession Ht).
    fold tr1. fold s0. unfold sync, bind.
    by rewrite cancel_loop_returns.
  - rewrite (callCancelTrain_run d tkey s1 t tr1 Hid Hsession Ht1).
    unfold sync, bind. cbn [_on_cancel tr1].
    by rewrite cancel_loop_returns.
  - cbn. by rewrite <- app_assoc.
Qed.

(** A callback that raises ends the cancellation where it stands: the
    callbacks registered before it have been called, it has been called,
    the ones registered after it are not called, and the exception leaves
    [callCancelTrain]; [cancelled] is already set. *)
Theorem callCancelTrain_stops_at_raise (d : list (string * pyval)) tkey s t tr
    before n after e :
  dict_get "trainingSessionId" d = Some (PyStr tkey) ->
  trainingSessions s !! tkey = Some t ->
  trackers s !! t = Some tr ->
  _on_cancel tr = before ++ PyFunc n :: after ->
  Forall (callable_returns E) before ->
  user_call E n [] (trace s ++ cancel_events before) = URaise e ->
  exists s',
    callCancelTrain E (PyDict d) s = Raised s' e /\
    trace s' = trace s ++ cancel_events before ++ [EvUserCall n []] /\
    (cancelled <$> trackers s' !! t) = Some (Some true).
Proof.
  intros Hid Hsession Ht Hcbs Hbefore Hraise.
  rewrite (callCancelTrain_run d tkey s t tr Hid Hsession Ht), Hcbs.
  set (s0 := set_trackers _ s).
  assert (forall cbs st, Forall (callable_returns E) cbs ->
            user_call E n [] (trace st ++ cancel_events cbs) = URaise e ->
            cancel_loop E (cbs ++ PyFunc n :: after) st
            = (set_trace (trace st ++ cancel_events cbs ++ [EvUserCall n []]) st, Exc e))
    as Hloop.
  { induction cbs as [|cb cbs IH]; intros st Hall Hr.
    - cbn [app cancel_loop call cancel_events omap list_omap] in *.
      rewrite app_nil_r in Hr. by rewrite Hr.
    - inversion Hall as [|? ? (m & -> & Hm) Hrest]; subst.
      cbn [app cancel_loop call].
      assert (cancel_loop E (cbs ++ PyFunc n :: after)
                (set_trace (trace st ++ [EvUserCall m []]) st)
              = (set_trace (trace st ++ cancel_events (PyFunc m :: cbs) ++ [EvUserCall n []]) st,
                 Exc e)) as Hnext.
      { rewrite IH; [|done|].
        - unfold set_trace. cbn. by rewrite <- !app_assoc.
        - cbn [trace set_trace]. rewrite <- app_assoc. exact Hr. }
      destruct (user_call E m [] (trace st)) as [v|e'|a] eqn:Hcall;
        [exact Hnext|by apply Hm in Hcall|exact Hnext]. }
  unfold sync, bind. rewrite (Hloop before s0 Hbefore Hraise).
  eexists. split; [reflexivity|]. split; [reflexivity|].
  cbn -[lookup]. rewrite list_lookup_insert_eq by (by eapply lookup_lt_Some). done.
Qed.

End TrackerEdges.

(** ** Instantiation: how a handle becomes ready, or goes away *)

Section InstantiateProofs.

Variable E : host.

(** The rest of [callInstantiateModel] after the user's call (lines
    126-150), for activation [a], complete cell [c] and id [key]. *)
Lemma callInstantiateModel_run (d : list (string * pyval)) key st loaders n s :
  dict_get "instantiatedModelId" d = Some (PyStr key) ->
  dict_get "state" d = Some st ->
  createStateLoaderMap E st = Ok loaders ->
  capability E (runningProgram s) "instantiateModel" = Ok (PyFunc n) ->
  callInstantiateModel E (PyDict d) s
  = await_user
      (user_call E n [loaders] (trace s ++ [EvCreateStateLoaderMap (length (completes s)) st]))
      (fun w =>
         match w with
         | Exc e =>
             sync
               (set_complete (length (completes s)) ;;
                let* act := get_activation E (length (activations s)) in
                (if negb (disposed act)
                 then del_instantiatedModels E key ;;
                      set_result E (length (activations s)) PyNone
                 else ret tt) ;;
                ret (error_result e))
               finish
         | Ok awaitedres =>
             sync
               (set_complete (length (completes s)) ;;
                set_stored_model E (length (activations s)) awaitedres ;;
                let* act := get_activation E (length (activations s)) in
                (if disposed act
                 then call_dispose2 E awaitedres
                 else set_stored_dispose E (length (activations s)) (dispose2 awaitedres) ;;
                      set_result E (length (activations s)) awaitedres) ;;
                ret ok_result)
               finish
         end)
      (instantiate_called key st loaders n s).
Proof.
  intros Hid Hst Hloaders Hcap.
  unfold callInstantiateModel, sync, bind, subscript, as_key, gets, ret, modify,
    new_complete, call_createStateLoaderMap, log, lift, bind.
  rewrite Hid, Hst. cbn -[lookup insert]. rewrite Hloaders.
  unfold invoke. cbn -[lookup insert]. rewrite Hcap. unfold call.
  cbn -[lookup insert]. unfold instantiate_called.
  by rewrite <- app_assoc.
Qed.

Lemma get_activation_Some s a act :
  activations s !! a = Some act -> get_activation E a s = (s, Ok act).
Proof. intros H. unfold get_activation. by rewrite H. Qed.

(** The instantiation succeeded with [v] while the handle was pending and
    not disposed. *)
Lemma instantiate_success_epilogue a c key v s :
  activations s !! a
    = Some {| act_id := key; disposed := false; modelFuture := None;
              stored_model := None; stored_dispose := dispose |} ->
  sync
    (set_complete c ;;
     set_stored_model E a v ;;
     let* act := get_activation E a in
     (if disposed act
      then call_dispose2 E v
      else set_stored_dispose E a (dispose2 v) ;; set_result E a v) ;;
     ret ok_result)
    finish s
  = Done (set_activations
            (<[a := {| act_id := key; disposed := false; modelFuture := Some v;
                       stored_model := Some v; stored_dispose := dispose2 v |}]>
               (activations s))
            (set_completes (<[c:=true]> (completes s)) s))
         ok_result.
Proof.
  intros Ha. pose proof (lookup_lt_Some _ _ _ Ha) as Hlt.
  unfold sync, bind, set_complete, modify, set_stored_model, set_stored_dispose,
    set_result, put_activation, bind, modify, ret, get_activation.
  cbn -[lookup insert]. rewrite Ha. cbn -[lookup insert].
  rewrite list_lookup_insert_eq by done. cbn -[lookup insert].
  rewrite list_lookup_insert_eq by done. cbn -[lookup insert].
  rewrite list_lookup_insert_eq by (by rewrite length_insert). cbn -[lookup insert].
  unfold finish, set_activations, set_completes. cbn.
  by rewrite !list_insert_insert_eq.
Qed.

(** The instantiation failed with [e] while the handle was pending, not
    disposed, and still registered. *)
Lemma instantiate_failure_epilogue a c key x e s :
  activations s !! a
    = Some {| act_id := key; disposed := false; modelFuture := None;
              stored_model := None; stored_dispose := dispose |} ->
  instantiatedModels s !! key = Some x ->
  sync
    (set_complete c ;;
     let* act := get_activation E a in
     (if negb (disposed act)
      then del_instantiatedModels E key ;; set_result E a PyNone
      else ret tt) ;;
     ret (error_result e))
    finish s
  = Done (set_activations
            (<[a := {| act_id := key; disposed := false; modelFuture := Some PyNone;
                       stored_model := None; stored_dispose := dispose |}]>
               (activations s))
            (set_instantiatedModels (delete key (instantiatedModels s))
               (set_completes (<[c:=true]> (completes s)) s)))
         (error_result e).
Proof.
  intros Ha Hkey.
  unfold sync, bind, set_complete, modify, del_instantiatedModels, set_result,
    put_activation, bind, modify, ret, get_activation.
  cbn -[lookup insert delete]. rewrite Ha. cbn -[lookup insert delete].
  rewrite Hkey. cbn -[lookup insert delete]. rewrite Ha. reflexivity.
Qed.

(** The instantiation failed after the host's dispose call had taken the
    id out of the registry: line 134 raises [KeyError]. *)
Lemma instantiate_failure_unregistered a c key e s :
  activations s !! a
    = Some {| act_id := key; disposed := false; modelFuture := None;
              stored_model := None; stored_dispose := dispose |} ->
  instantiatedModels s !! key = None ->
  sync
    (set_complete c ;;
     let* act := get_activation E a in
     (if negb (disposed act)
      then del_instantiatedModels E key ;; set_result E a PyNone
      else ret tt) ;;
     ret (error_result e))
    finish s
  = Raised (set_completes (<[c:=true]> (completes s)) s) (runtime_exn E "KeyError" key).
Proof.
  intros Ha Hkey.
  unfold sync, bind, set_complete, modify, del_instantiatedModels, set_result,
    put_activation, bind, modify, ret, get_activation.
  cbn -[lookup insert delete]. rewrite Ha. cbn -[lookup insert delete].
  by rewrite Hkey.
Qed.

Lemma instantiate_called_activation key st loaders n s :
  activations (instantiate_called key st loaders n s) !! length (activations s)
  = Some {| act_id := key; disposed := false; modelFuture := None;
            stored_model := None; stored_dispose := dispose |}.
Proof.
  cbn -[lookup]. rewrite lookup_app_r by done. by rewrite Nat.sub_diag.
Qed.

Lemma instantiate_called_handle key st loaders n s :
  instantiatedModels (instantiate_called key st loaders n s) !! key
  = Some (length (activations s)).
Proof. cbn -[lookup insert]. apply lookup_insert_eq. Qed.

(** [callInstantiateModel] when the user's [instantiateModel] answers at
    the call.  If it returns [v], the call returns [{}] with the id
    registered and the handle ready: its model is [v], its future is
    resolved to [v] and its dispose closure is the model's.  If it raises,
    the call returns the exception as an error, the id is no longer
    registered and the future is resolved to [None]. *)
Theorem callInstantiateModel_completes (d : list (string * pyval)) key st loaders n s :
  dict_get "instantiatedModelId" d = Some (PyStr key) ->
  dict_get "state" d = Some st ->
  createStateLoaderMap E st = Ok loaders ->
  capability E (runningProgram s) "instantiateModel" = Ok (PyFunc n) ->
  let answer :=
    user_call E n [loaders] (trace s ++ [EvCreateStateLoaderMap (length (completes s)) st]) in
  (forall v, answer = UReturn v ->
     exists s',
       callInstantiateModel E (PyDict d) s = Done s' ok_result /\
       instantiatedModels s' !! key = Some (length (activations s)) /\
       activations s' !! length (activations s)
         = Some {| act_id := key; disposed := false; modelFuture := Some v;
                   stored_model := Some v; stored_dispose := dispose2 v |}) /\
  (forall e, answer = URaise e ->
     exists s',
       callInstantiateModel E (PyDict d) s = Done s' (error_result e) /\
       instantiatedModels s' !! key = None /\
       activations s' !! length (activations s)
         = Some {| act_id := key; disposed := false; modelFuture := Some PyNone;
                   stored_model := None; stored_dispose := dispose |}).
Proof.
  intros Hid Hst Hloaders Hcap answer.
  rewrite (callInstantiateModel_run d key st loaders n s Hid Hst Hloaders Hcap).
  fold answer. split.
  - intros v ->. cbn [await_user].
    rewrite (instantiate_success_epilogue _ _ key)
      by apply instantiate_called_activation.
    eexists. split; [reflexivity|]. split.
    + cbn -[lookup insert]. apply lookup_insert_eq.
    + cbn -[lookup insert]. apply list_lookup_insert_eq.
      rewrite length_app. cbn. lia.
  - intros e ->. cbn [await_user].
    rewrite (instantiate_failure_epilogue _ _ key (length (activations s)))
      by (apply instantiate_called_activation || apply instantiate_called_handle).
    eexists. split; [reflexivity|]. split.
    + cbn -[lookup insert delete]. apply lookup_delete_eq.
    + cbn -[lookup insert]. apply list_lookup_insert_eq.
      rewrite length_app. cbn. lia.
Qed.

(** [callInstantiateModel] when the user's [instantiateModel] answers with
    an awaitable: the call waits with the id registered and the handle
    pending.  When the awaitable fails while the id is still registered,
    the id is removed, the future resolved to [None] and the error
    returned.  When the host's dispose call came first (it only removed the
    id), a failure raises [KeyError] out of the handler instead of
    returning the error, and a success leaves the model ready, returns
    [{}] and calls nothing. *)
Theorem callInstantiateModel_pending (d : list (string * pyval)) key st loaders n aw s :
  dict_get "instantiatedModelId" d = Some (PyStr key) ->
  dict_get "state" d = Some st ->
  createStateLoaderMap E st = Ok loaders ->
  capability E (runningProgram s) "instantiateModel" = Ok (PyFunc n) ->
  user_call E n [loaders] (trace s ++ [EvCreateStateLoaderMap (length (completes s)) st])
    = UAwaitable aw ->
  exists s1 k,
    callInstantiateModel E (PyDict d) s = Suspended s1 (AwaitUser aw) k /\
    instantiatedModels s1 !! key = Some (length (activations s)) /\
    activations s1 !! length (activations s)
      = Some {| act_id := key; disposed := false; modelFuture := None;
                stored_model := None; stored_dispose := dispose |} /\
    forall s2,
      activations s2 !! length (activations s) = activations s1 !! length (activations s) ->
      (forall e x, instantiatedModels s2 !! key = Some x ->
         exists s3, k (Exc e) s2 = Done s3 (error_result e) /\
                    instantiatedModels s3 !! key = None /\
                    (modelFuture <$> activations s3 !! length (activations s))
                      = Some (Some PyNone)) /\
      (forall e, instantiatedModels s2 !! key = None ->
         exists s3 e', k (Exc e) s2 = Raised s3 e') /\
      (forall v,
         exists s3, k (Ok v) s2 = Done s3 ok_result /\
                    trace s3 = trace s2 /\
                    instantiatedModels s3 = instantiatedModels s2 /\
                    (stored_model <$> activations s3 !! length (activations s))
                      = Some (Some v)).
Proof.
  intros Hid Hst Hloaders Hcap Hanswer.
  rewrite (callInstantiateModel_run d key st loaders n s Hid Hst Hloaders Hcap), Hanswer.
  cbn [await_user]. eexists _, _. split; [reflexivity|].
  split; [apply instantiate_called_handle|].
  split; [apply instantiate_called_activation|].
  intros s2 Hact. rewrite instantiate_called_activation in Hact.
  pose proof (lookup_lt_Some _ _ _ Hact) as Hlt.
  split; [|split].
  - intros e x Hkey.
    rewrite (instantiate_failure_epilogue _ _ key x e s2 Hact Hkey).
    eexists. split; [reflexivity|]. split.
    + cbn -[lookup delete]. apply lookup_delete_eq.
    + cbn -[lookup insert]. by rewrite list_lookup_insert_eq.
  - intros e Hkey.
    rewrite (instantiate_failure_unregistered _ _ key e s2 Hact Hkey).
    eexists _, _. reflexivity.
  - intros v. rewrite (instantiate_success_epilogue _ _ key v s2 Hact).
    eexists. split; [reflexivity|]. split; [reflexivity|]. split; [reflexivity|].
    cbn -[lookup insert]. by rewrite list_lookup_insert_eq.
Qed.

(** [callDisposeInstantiatedModel] for an id that is not registered does
    nothing and does not raise. *)
Theorem dispose_unknown_id (d : list (string * pyval)) key s :
  dict_get "instantiatedModelId" d = Some (PyStr key) ->
  instantiatedModels s !! key = None ->
  callDisposeInstantiatedModel E (PyDict d) s = Done s None.
Proof.
  intros Hid Hnone.
  unfold callDisposeInstantiatedModel, sync, bind, subscript, as_key, gets, ret.
  by rewrite Hid, Hnone.
Qed.

End InstantiateProofs.

(** ** Evaluation: the outputs and their attachment *)

Section EvaluateProofs.

Variable E : host.

Lemma data_loop_bytes data : forall bs,
  data_loop E data = Ok bs -> data = map PyBytes bs.
Proof.
  induction data as [|x data IH]; intros bs Hd; cbn [data_loop] in Hd.
  - by injection Hd as <-.
  - destruct x; try discriminate Hd.
    destruct (data_loop E data) as [l|e]; [|discriminate Hd].
    injection Hd as <-. cbn [map]. f_equal. by apply IH.
Qed.

Lemma foldr_add_app (l1 l2 : list Z) :
  foldr Z.add 0 (l1 ++ l2) = foldr Z.add 0 l1 + foldr Z.add 0 l2.
Proof. induction l1 as [|x l1 IH]; cbn [app foldr]; lia. Qed.

Lemma byte_sizes_total_app outs1 outs2 :
  byte_sizes_total (outs1 ++ outs2) = byte_sizes_total outs1 + byte_sizes_total outs2.
Proof. unfold byte_sizes_total. by rewrite map_app, concat_app, foldr_add_app. Qed.

Lemma byte_sizes_of_lengths (bs : list bytes) :
  foldr Z.add 0
    (omap (fun x => match x with PyInt z => Some z | _ => None end)
       (map (fun x : bytes => PyInt (Z.of_nat (length x))) bs))
  = Z.of_nat (length (concat bs)).
Proof.
  induction bs as [|b bs IH]; [done|].
  cbn [map omap list_omap foldr concat]. rewrite length_app, IH. lia.
Qed.

(** The loop of lines 232-243 keeps the sizes and the bytes in step: what
    it adds to [outputs] announces, in its ["byteSizes"], exactly the
    number of bytes it adds to [alsoSend], and it adds one output per
    element. *)
Lemma outputs_loop_sizes l : forall outputs alsoSend outputs' alsoSend',
  outputs_loop E l outputs alsoSend = Ok (outputs', alsoSend') ->
  exists new_outputs new_bytes,
    outputs' = outputs ++ new_outputs /\
    alsoSend' = alsoSend ++ new_bytes /\
    length new_outputs = length l /\
    byte_sizes_total new_outputs = Z.of_nat (length (concat new_bytes)).
Proof.
  induction l as [|el l IH]; intros outs sends outs' sends' Hloop;
    cbn [outputs_loop] in Hloop.
  - injection Hloop as <- <-. exists [], []. by rewrite !app_nil_r.
  - destruct el as [| | | | | | |d| | |]; try discriminate Hloop.
    destruct (dict_get "name" d) as [[| | | |name| | | | | |]|]; try discriminate Hloop.
    destruct (dict_get "data" d) as [[| | | | | |data| | | |]|]; try discriminate Hloop.
    destruct (data_loop E data) as [bs|e]; [|discriminate Hloop].
    apply IH in Hloop as (new_outs & new_bytes & -> & -> & Hlen & Htotal).
    eexists (_ :: new_outs), (bs ++ new_bytes).
    split; [by rewrite <- app_assoc|]. split; [by rewrite <- app_assoc|].
    split; [cbn; by rewrite Hlen|].
    change (?x :: new_outs) with ([x] ++ new_outs).
    rewrite byte_sizes_total_app, Htotal, concat_app, length_app.
    unfold byte_sizes_total. cbn [map concat output_byte_sizes dict_get String.eqb].
    cbn -[omap Z.add]. rewrite app_nil_r, byte_sizes_of_lengths. lia.
Qed.

Lemma callEvaluate_run (d : list (string * pyval)) key a act model params map n s :
  dict_get "instantiatedModelId" d = Some (PyStr key) ->
  instantiatedModels s !! key = Some a ->
  activations s !! a = Some act ->
  stored_model act = Some model ->
  dict_get "params" d = Some params ->
  createDataLoaderMap E params = Ok map ->
  capability E model "evaluate" = Ok (PyFunc n) ->
  exists s1,
    callEvaluate E (PyDict d) s
    = await_user
        (user_call E n [map] (trace s ++ [EvCreateDataLoaderMap (length (completes s)) params]))
        (fun w =>
           match w with
           | Ok awaitedres =>
               sync
                 (set_complete (length (completes s)) ;;
                  match awaitedres with
                  | PyList l =>
                      match outputs_loop E l [] [] with
                      | Ok (outputs, alsoSend) =>
                          ret (Some {| result := PyDict [("outputs", PyList outputs)];
                                       alsoSend := Some [bytes_join alsoSend] |})
                      | Exc e => ret (error_result e)
                      end
                  | _ => ret (error_result (runtime_exn E "Exception"
                      "Evaluate: Expected return value of 'evaluate' to be a list."))
                  end)
                 finish
           | Exc e => sync (set_complete (length (completes s)) ;; ret (error_result e)) finish
           end) s1 /\
    trace s1 = trace s ++ [EvCreateDataLoaderMap (length (completes s)) params;
                           EvUserCall n [map]].
Proof.
  intros Hid Ha Hact Hstored Hparams Hmap Hcap. eexists. split.
  - unfold callEvaluate, sync, bind, subscript, as_key, gets, ret.
    rewrite Hid, Ha. unfold resolve_model. rewrite Hact, Hstored.
    unfold new_complete, call_createDataLoaderMap, log, lift, modify, bind.
    rewrite Hparams. cbn -[lookup]. rewrite Hmap.
    unfold invoke. rewrite Hcap. unfold call. cbn -[lookup].
    reflexivity.
  - cbn. by rewrite <- app_assoc.
Qed.

Lemma data_loop_well_formed data :
  forallb (fun x => match x with PyBytes _ => true | _ => false end) data = true ->
  data_loop E data
  = Ok (omap (fun x => match x with PyBytes b => Some b | _ => None end) data).
Proof.
  induction data as [|x data IH]; intros Hall; [done|].
  cbn [forallb] in Hall. apply andb_prop in Hall as [Hx Hrest].
  destruct x; try discriminate Hx.
  cbn [data_loop omap list_omap]. by rewrite (IH Hrest).
Qed.

Lemma data_loop_malformed data :
  forallb (fun x => match x with PyBytes _ => true | _ => false end) data = false ->
  exists msg, data_loop E data = Exc (runtime_exn E "Exception" msg).
Proof.
  induction data as [|x data IH]; intros Hall; [discriminate Hall|].
  cbn [forallb] in Hall.
  destruct x; try (eexists; reflexivity).
  cbn [andb] in Hall. destruct (IH Hall) as (msg & Hmsg).
  exists msg. cbn [data_loop]. by rewrite Hmsg.
Qed.

(** The loop of lines 232-243 on well-formed elements: one announced
    output per element, and their bytes, both in order. *)
Lemma outputs_loop_well_formed l : forall outputs alsoSend,
  forallb well_formed_output l = true ->
  outputs_loop E l outputs alsoSend
  = Ok (outputs ++ map announced_output l, alsoSend ++ concat (map output_data l)).
Proof.
  induction l as [|el l IH]; intros outs sends Hall.
  - cbn. by rewrite !app_nil_r.
  - cbn [forallb] in Hall. apply andb_prop in Hall as [Hel Hrest].
    destruct el as [| | | | | | |d| | |]; try discriminate Hel.
    cbn [well_formed_output] in Hel.
    cbn [outputs_loop map concat].
    destruct (dict_get "name" d) as [[| | | |name| | | | | |]|] eqn:Hname;
      try discriminate Hel.
    destruct (dict_get "data" d) as [[| | | | | |data| | | |]|] eqn:Hdata;
      try discriminate Hel.
    rewrite (data_loop_well_formed data Hel), (IH _ _ Hrest).
    unfold announced_output at 2, output_data at 2 3.
    rewrite Hname, Hdata. cbn [default]. by rewrite <- !app_assoc.
Qed.

(** The loop on a list with a malformed element raises. *)
Lemma outputs_loop_malformed l : forall outputs alsoSend,
  forallb well_formed_output l = false ->
  exists msg, outputs_loop E l outputs alsoSend = Exc (runtime_exn E "Exception" msg).
Proof.
  induction l as [|el l IH]; intros outs sends Hall; [discriminate Hall|].
  cbn [forallb] in Hall.
  destruct el as [| | | | | | |d| | |]; try (eexists; reflexivity).
  cbn [well_formed_output outputs_loop] in Hall |- *.
  destruct (dict_get "name" d) as [[| | | |name| | | | | |]|]; try (eexists; reflexivity).
  destruct (dict_get "data" d) as [[| | | | | |data| | | |]|]; try (eexists; reflexivity).
  destruct (forallb _ data) eqn:Hdata.
  - rewrite (data_loop_well_formed data Hdata). cbn [andb] in Hall. by apply IH.
  - destruct (data_loop_malformed data Hdata) as (msg & ->). by exists msg.
Qed.

(** [callEvaluate] on a ready model whose [evaluate] returns at the call
    always returns a result, after exactly one call of [evaluate].  When
    the value returned is a list of well-formed elements (dicts with a
    [str] under ["name"] and a list of [bytes] under ["data"]), the result
    is the outputs, one per element and in order, each announcing the
    sizes of its own data, with a single attachment that is all the data
    joined; the attachment is as long as the total of the ["byteSizes"]
    announced.  In every other case, and only then, the result is an
    ["exception"] error without attachment. *)
Theorem callEvaluate_returns (d : list (string * pyval)) key a act model params map n v s :
  dict_get "instantiatedModelId" d = Some (PyStr key) ->
  instantiatedModels s !! key = Some a ->
  activations s !! a = Some act ->
  stored_model act = Some model ->
  dict_get "params" d = Some params ->
  createDataLoaderMap E params = Ok map ->
  capability E model "evaluate" = Ok (PyFunc n) ->
  user_call E n [map] (trace s ++ [EvCreateDataLoaderMap (length (completes s)) params])
    = UReturn v ->
  exists s' r,
    callEvaluate E (PyDict d) s = Done s' (Some r) /\
    trace s' = trace s ++ [EvCreateDataLoaderMap (length (completes s)) params;
                           EvUserCall n [map]] /\
    match v with
    | PyList l =>
        if forallb well_formed_output l then
          r = {| result := PyDict [("outputs", PyList (List.map announced_output l))];
                 alsoSend := Some [bytes_join (concat (List.map output_data l))] |} /\
          byte_sizes_total (List.map announced_output l)
          = Z.of_nat (length (bytes_join (concat (List.map output_data l))))
        else
          exists msg, Some r = error_result (runtime_exn E "Exception" msg)
    | _ => exists msg, Some r = error_result (runtime_exn E "Exception" msg)
    end.
Proof.
  intros Hid Ha Hact Hstored Hparams Hmap Hcap Hret.
  destruct (callEvaluate_run d key a act model params map n s
              Hid Ha Hact Hstored Hparams Hmap Hcap) as (s1 & -> & Htrace).
  rewrite Hret. cbn [await_user]. unfold sync, bind, set_complete, modify.
  destruct v as [| | | | | |l| | | |];
    try (eexists _, _; split; [reflexivity|]; split; [exact Htrace|];
         eexists; reflexivity).
  destruct (forallb well_formed_output l) eqn:Hall.
  - pose proof (outputs_loop_well_formed l [] [] Hall) as Hloop.
    cbn [app] in Hloop. rewrite Hloop.
    eexists _, _. split; [reflexivity|]. split; [exact Htrace|].
    split; [reflexivity|].
    apply outputs_loop_sizes in Hloop as (new_outs & new_bytes & Houts & Hbytes & _ & Htotal).
    cbn [app] in Houts, Hbytes. unfold bytes_join. by rewrite Houts, Hbytes.
  - destruct (outputs_loop_malformed l [] [] Hall) as (msg & ->).
    eexists _, _. split; [reflexivity|]. split; [exact Htrace|].
    exists msg. reflexivity.
Qed.

(** [callGetModelState] on an id that is not registered returns the
    not-found result without creating a state provider or calling user
    code. *)
Theorem callGetModelState_not_found (d : list (string * pyval)) key s :
  dict_get "instantiatedModelId" d = Some (PyStr key) ->
  instantiatedModels s !! key = None ->
  callGetModelState E (PyDict d) s = Done s not_found_result.
Proof.
  intros Hid Hnone.
  unfold callGetModelState, sync, bind, subscript, as_key, gets, ret.
  by rewrite Hid, Hnone.
Qed.

End EvaluateProofs.

(** ** The dispatcher: routing and replies *)

Section DispatchProofs.

Variable E : host.

Lemma processMessage_dispatch (buf : bytes) (d : list (string * pyval)) name h params s :
  json_loads E buf = Some (PyDict d) ->
  dict_get "method" d = Some (PyStr name) ->
  rpc E !! name = Some h ->
  dict_get "params" d = Some params ->
  processMessage E buf s
  = coro_then (h params s) (fun _response => sync (reply E (PyDict d) _response) finish).
Proof.
  intros Hparsed Hmethod Hrpc Hparams. unfold processMessage.
  rewrite Hparsed. unfold sync, bind, subscript. rewrite Hmethod, Hparams.
  cbn -[rpc lookup]. by rewrite Hrpc.
Qed.

(** A call whose [params] carry no ["id"] is one-way: when its handler has
    returned, [processMessage] returns without sending anything, whatever
    the handler returned. *)
Theorem processMessage_one_way (buf : bytes) (d p : list (string * pyval)) name h s s' r :
  json_loads E buf = Some (PyDict d) ->
  dict_get "method" d = Some (PyStr name) ->
  rpc E !! name = Some h ->
  dict_get "params" d = Some (PyDict p) ->
  dict_get "id" p = None ->
  h (PyDict p) s = Done s' r ->
  processMessage E buf s = Done s' tt.
Proof.
  intros Hparsed Hmethod Hrpc Hparams Hid Hdone.
  rewrite (processMessage_dispatch buf d name h (PyDict p) s Hparsed Hmethod Hrpc Hparams).
  rewrite Hdone. cbn [coro_then].
  unfold sync, reply, bind, subscript, py_in, ret. rewrite Hparams, Hid.
  reflexivity.
Qed.

(** A call with an ["id"] whose handler returned a result dict is
    answered by exactly one control frame: the JSON [{"id", "result"}]
    first, then the handler's attachments. *)
Theorem processMessage_replies (buf : bytes) (d p : list (string * pyval)) name h s s'
    i resp :
  json_loads E buf = Some (PyDict d) ->
  dict_get "method" d = Some (PyStr name) ->
  rpc E !! name = Some h ->
  dict_get "params" d = Some (PyDict p) ->
  dict_get "id" p = Some i ->
  h (PyDict p) s = Done s' (Some resp) ->
  let toSend := json_dumps E (PyDict [("id", i); ("result", result resp)])
                :: default [] (alsoSend resp) in
  fits_frame toSend ->
  processMessage E buf s = Done (set_outbox (outbox s' ++ [control_layout toSend]) s') tt.
Proof.
  intros Hparsed Hmethod Hrpc Hparams Hid Hdone toSend Hfit.
  rewrite (processMessage_dispatch buf d name h (PyDict p) s Hparsed Hmethod Hrpc Hparams).
  rewrite Hdone. cbn [coro_then].
  unfold sync, reply, bind, subscript, py_in, ret. rewrite Hparams, Hid.
  cbn -[encodeControlFrame]. fold toSend.
  by rewrite encodeControlFrame_layout.
Qed.

(** A call with an ["id"] whose handler returned [None] gets no reply: the
    reply code subscripts [None] and raises.  The handlers that are plain
    functions ([initialize], [callDisposeInstantiatedModel]) return
    nothing else. *)
Theorem processMessage_none_response (buf : bytes) (d p : list (string * pyval)) name h
    s s' i :
  json_loads E buf = Some (PyDict d) ->
  dict_get "method" d = Some (PyStr name) ->
  rpc E !! name = Some h ->
  dict_get "params" d = Some (PyDict p) ->
  dict_get "id" p = Some i ->
  h (PyDict p) s = Done s' None ->
  exists e, processMessage E buf s = Raised s' e.
Proof.
  intros Hparsed Hmethod Hrpc Hparams Hid Hdone.
  rewrite (processMessage_dispatch buf d name h (PyDict p) s Hparsed Hmethod Hrpc Hparams).
  rewrite Hdone. cbn [coro_then].
  unfold sync, reply, bind, subscript, py_in, ret. rewrite Hparams, Hid.
  eexists. reflexivity.
Qed.

(** An exception that leaves a handler leaves [processMessage] too, with
    no reply: for instance a missing argument ([KeyError]). *)
Theorem processMessage_handler_raises (buf : bytes) (d : list (string * pyval)) name h
    params s s' e :
  json_loads E buf = Some (PyDict d) ->
  dict_get "method" d = Some (PyStr name) ->
  rpc E !! name = Some h ->
  dict_get "params" d = Some params ->
  h params s = Raised s' e ->
  processMessage E buf s = Raised s' e.
Proof.
  intros Hparsed Hmethod Hrpc Hparams Hraised.
  rewrite (processMessage_dispatch buf d name h params s Hparsed Hmethod Hrpc Hparams).
  by rewrite Hraised.
Qed.

(** ** initialize *)

(** [initialize] with a string path never raises on a module that fails to
    load: it reports the exception in the [modelSessionInitialized] event
    and leaves [runningProgram] as it was.  On success it stores the
    module's model and sends the event with empty parameters.  Either way
    it sends exactly one event and returns [None]. *)
Theorem initialize_reports (d : list (string * pyval)) path s :
  dict_get "path" d = Some (PyStr path) ->
  (forall model,
     load_module E (PyStr path) = Ok model ->
     let toSend := [json_dumps E (PyDict [("event", PyStr "modelSessionInitialized");
                                         ("params", PyDict [])])] in
     fits_frame toSend ->
     initialize E (PyDict d) s
     = Done (set_outbox (outbox s ++ [control_layout toSend])
               (set_runningProgram model
                  (set_trace (trace s ++ [EvLoadModule (PyStr path)]) s))) None) /\
  (forall e,
     load_module E (PyStr path) = Exc e ->
     let toSend := [json_dumps E (PyDict [("event", PyStr "modelSessionInitialized");
                      ("params", PyDict [("error", getErrorFromException e)])])] in
     fits_frame toSend ->
     initialize E (PyDict d) s
     = Done (set_outbox (outbox s ++ [control_layout toSend])
               (set_trace (trace s ++ [EvLoadModule (PyStr path)]) s)) None).
Proof.
  intros Hpath. split.
  - intros model Hload toSend Hfit.
    unfold initialize, sync, bind, subscript, log, modify, try_except, lift, ret.
    rewrite Hpath. cbn -[sendEventToParent]. rewrite Hload.
    cbn -[sendEventToParent].
    rewrite sendEventToParent_fits by exact Hfit. reflexivity.
  - intros e Hload toSend Hfit.
    unfold initialize, sync, bind, subscript, log, modify, try_except, lift, ret.
    rewrite Hpath. cbn -[sendEventToParent]. rewrite Hload.
    cbn -[sendEventToParent]. unfold bind.
    rewrite sendEventToParent_fits by exact Hfit. reflexivity.
Qed.

End DispatchProofs.

(** ** callCreateModelState *)

Section CreateModelStateProofs.

Variable E : host.

Lemma other_model_states_loop_events c others : forall s,
  Forall (well_formed_other_state E) others ->
  other_model_states_loop E c others s
  = (set_trace (trace s ++ other_state_events c others) s, Ok tt).
Proof.
  induction others as [|o others IH]; intros s Hall.
  - cbn. rewrite app_nil_r. by destruct s.
  - inversion Hall as [|? ? (od & st & i & loaders & -> & Hst & Hi & Hh & Hl) Hrest]; subst.
    cbn [other_model_states_loop other_state_events omap list_omap].
    unfold bind, subscript, call_createStateLoaderMap, log, modify, lift, ret, raise, bind.
    rewrite Hst, Hi. cbn -[other_model_states_loop]. rewrite Hl, Hh.
    rewrite IH by done. unfold set_trace. cbn. by rewrite <- app_assoc.
Qed.

(** [callCreateModelState] with well-formed arguments never raises when
    the program cannot create a model state: a missing capability (no
    program loaded yet, for instance) and an exception of the user's
    [createModelState] both come back as an ["exception"] error result; a
    normal return gives [{}].  In every case one state loader map was
    created per other model state, in order, before the user code ran,
    and the [complete] cell is set when the call returns. *)
Theorem callCreateModelState_returns (d : list (string * pyval)) params map i provider
    others s :
  dict_get "params" d = Some params ->
  createDataLoaderMap E params = Ok map ->
  dict_get "id" d = Some i ->
  createStateProvider E i = Ok provider ->
  dict_get "otherModelStates" d = Some (PyList others) ->
  Forall (well_formed_other_state E) others ->
  let c := length (completes s) in
  let before := trace s ++ [EvCreateDataLoaderMap c params; EvCreateStateProvider c i]
                ++ other_state_events c others in
  (forall e,
     capability E (runningProgram s) "createModelState" = Exc e ->
     exists s',
       callCreateModelState E (PyDict d) s = Done s' (error_result e) /\
       trace s' = before /\ completes s' !! c = Some true) /\
  (forall n,
     capability E (runningProgram s) "createModelState" = Ok (PyFunc n) ->
     (forall v, user_call E n [map; provider] before = UReturn v ->
        exists s',
          callCreateModelState E (PyDict d) s = Done s' ok_result /\
          trace s' = before ++ [EvUserCall n [map; provider]] /\
          completes s' !! c = Some true) /\
     (forall e, user_call E n [map; provider] before = URaise e ->
        exists s',
          callCreateModelState E (PyDict d) s = Done s' (error_result e) /\
          trace s' = before ++ [EvUserCall n [map; provider]] /\
          completes s' !! c = Some true)).
Proof.
  intros Hparams Hmap Hi Hprovider Hothers Hall c before.
  assert (forall s0 : state, completes s0 = completes s ++ [false] ->
            <[c:=true]> (completes s0) !! c = Some true) as Hcell.
  { intros s0 ->. apply list_lookup_insert_eq. rewrite length_app. cbn. unfold c. lia. }
  assert (exists s1,
            callCreateModelState E (PyDict d) s
            = (let '(s2, res) := invoke E (runningProgram s1) "createModelState"
                                   [map; provider] s1 in
               await_user res
                 (fun w =>
                    match w with
                    | Ok _ => sync (set_complete c ;; ret ok_result) finish
                    | Exc e => sync (set_complete c ;; ret (error_result e)) finish
                    end) s2) /\
            trace s1 = before /\ completes s1 = completes s ++ [false] /\
            runningProgram s1 = runningProgram s) as (s1 & -> & Htrace & Hcompletes & Hprog).
  { eexists. split.
    - unfold callCreateModelState, sync, bind, subscript, new_complete,
        call_createDataLoaderMap, call_createStateProvider, log, modify, lift, py_iter,
        ret, bind.
      rewrite Hparams, Hi, Hothers. cbn -[other_model_states_loop invoke].
      rewrite Hmap. cbn -[other_model_states_loop invoke]. rewrite Hprovider.
      cbn -[other_model_states_loop invoke].
      rewrite other_model_states_loop_events by done. reflexivity.
    - split; [|split; reflexivity]. cbn. unfold before, c.
      by rewrite <- !app_assoc. }
  unfold invoke. rewrite Hprog. split.
  - intros e ->. cbn [await_user]. unfold sync, bind, set_complete, modify, ret, finish.
    eexists. split; [reflexivity|]. split; [exact Htrace|]. cbn -[lookup insert].
    by apply Hcell.
  - intros n ->. unfold call. rewrite Htrace. split.
    + intros v ->. cbn [await_user]. unfold sync, bind, set_complete, modify, ret, finish.
      eexists. split; [reflexivity|]. split; [by rewrite <- Htrace|].
      cbn -[lookup insert]. by apply Hcell.
    + intros e ->. cbn [await_user]. unfold sync, bind, set_complete, modify, ret, finish.
      eexists. split; [reflexivity|]. split; [by rewrite <- Htrace|].
      cbn -[lookup insert]. by apply Hcell.
Qed.

End CreateModelStateProofs.

(** ** model.py: the checks in front of user code *)

Section ModelProofs.

Variable E : host.

Lemma checked_not_callable m name :
  (forall n, capability_of m name <> Some (PyFunc n)) ->
  exists e, model._Model.checked E m name false = Exc e.
Proof.
  intros Hno. unfold model._Model.checked, model.getattr_or_None.
  destruct m as [| | | | | | |d|attrs| |]; cbn [capability_of] in Hno;
    try (eexists; reflexivity).
  - destruct (dict_get name d) as [f|]; [|eexists; reflexivity].
    destruct f; try (eexists; reflexivity). by destruct (Hno f).
  - destruct (dict_get name attrs) as [f|]; [|eexists; reflexivity].
    destruct f; try (eexists; reflexivity). by destruct (Hno f).
Qed.

Lemma checked_callable m name optional n :
  capability_of m name = Some (PyFunc n) ->
  model._Model.checked E m name optional = Ok (Some (PyFunc n)).
Proof.
  intros Hcap. unfold model._Model.checked, model.getattr_or_None.
  destruct m; cbn [capability_of] in Hcap; try discriminate Hcap; by rewrite Hcap.
Qed.

(** [_Model.dispose]: the model's [dispose] is optional.  A dict without
    the key, and an object without the attribute (or whose attribute is
    [None]), are disposed of by doing nothing: [None] comes back and no
    user code runs.  A callable [dispose] is called once, with no
    argument. *)
Theorem Model_dispose_optional (m : pyval) s :
  (capability_of m "dispose" = None ->
     model._Model.dispose E m s = (s, UReturn PyNone)) /\
  (forall attrs, m = PyObj attrs -> dict_get "dispose" attrs = Some PyNone ->
     model._Model.dispose E m s = (s, UReturn PyNone)) /\
  (forall n, capability_of m "dispose" = Some (PyFunc n) ->
     model._Model.dispose E m s
     = (set_trace (trace s ++ [EvUserCall n []]) s, user_call E n [] (trace s))).
Proof.
  split; [|split].
  - intros Hnone.
    unfold model._Model.dispose, model._Model.call_checked, model._Model.checked,
      model.getattr_or_None.
    destruct m; cbn [capability_of] in Hnone; try reflexivity; by rewrite Hnone.
  - intros attrs -> Hattr.
    unfold model._Model.dispose, model._Model.call_checked, model._Model.checked,
      model.getattr_or_None.
    by rewrite Hattr.
  - intros n Hcap. unfold model._Model.dispose, model._Model.call_checked.
    by rewrite (checked_callable m "dispose" true n Hcap).
Qed.

(** [_Model.getModelState] and [_Model.train] call user code only through
    a capability that is there and callable: otherwise they raise before
    anything is called and leave the state alone.  With a callable one,
    [train] calls it exactly once, on the loaders wrapped one by one under
    the same keys and on the wrapped tracker. *)
Theorem Model_capabilities_checked (m provider tracker : pyval)
    (params : list (string * pyval)) s :
  ((forall n, capability_of m "getModelState" <> Some (PyFunc n)) ->
     exists e, model._Model.getModelState E m provider s = (s, URaise e)) /\
  ((forall n, capability_of m "train" <> Some (PyFunc n)) ->
     exists e, model._Model.train E m (PyDict params) tracker s = (s, URaise e)) /\
  (forall n, capability_of m "train" = Some (PyFunc n) ->
     exists loaders,
       model._Model.train E m (PyDict params) tracker s
       = call E (PyFunc n) [PyDict loaders; model.TrainTracker tracker] s /\
       map fst loaders = map fst params /\
       Forall2 (fun loader param => loader.2 = model.DataLoader param.2) loaders params).
Proof.
  split; [|split].
  - intros Hno. unfold model._Model.getModelState, model._Model.call_checked.
    destruct (checked_not_callable m "getModelState" Hno) as [e H].
    rewrite H. by eexists.
  - intros Hno. unfold model._Model.train, model._Model.call_checked.
    cbn [model._Model._create_data_loader_map].
    destruct (checked_not_callable m "train" Hno) as [e H].
    rewrite H. by eexists.
  - intros n Hcap. eexists. split; [|split].
    + unfold model._Model.train, model._Model.call_checked.
      cbn [model._Model._create_data_loader_map].
      by rewrite (checked_callable m "train" false n Hcap).
    + rewrite map_map. by apply map_ext.
    + induction params as [|kv params IH]; cbn [map]; by constructor.
Qed.

(** [TrainTracker.failed] of model.py calls [failed] on the tracker it
    wraps, and the runtime's tracker has no such method: on a wrapped
    runtime tracker [failed] always raises, and changes nothing. *)
Theorem TrainTracker_failed_raises (t : nat) (reason : pyval) s :
  exists e,
    model.TrainTracker_failed E (model.TrainTracker (PyTracker t)) reason s = (s, Exc e).
Proof. eexists. reflexivity. Qed.

(** A callback that user code registers through the wrapper of model.py
    reaches the runtime's tracker: [callCancelTrain] for the session calls
    it. *)
Theorem wrapped_on_cancel_is_fired (d : list (string * pyval)) tkey t tr cb s :
  dict_get "trainingSessionId" d = Some (PyStr tkey) ->
  trainingSessions s !! tkey = Some t ->
  trackers s !! t = Some tr ->
  Forall (callable_returns E) (_on_cancel tr ++ [cb]) ->
  exists s',
    callCancelTrain E (PyDict d)
      (model.TrainTracker_on_cancel E (model.TrainTracker (PyTracker t)) cb s).1
    = Done s' None /\
    trace s' = trace s ++ cancel_events (_on_cancel tr ++ [cb]).
Proof.
  intros Hid Hsession Ht Hall.
  change (model.TrainTracker_on_cancel E (model.TrainTracker (PyTracker t)) cb s)
    with (on_cancel E t cb s).
  rewrite (on_cancel_appends E s t tr cb Ht). cbn [fst].
  set (tr1 := {| id := id tr; _on_cancel := _on_cancel tr ++ [cb];
                 _complete := _complete tr; cancelled := cancelled tr |}).
  set (s1 := set_trackers (<[t:=tr1]> (trackers s)) s).
  assert (trackers s1 !! t = Some tr1) as Ht1
    by (apply list_lookup_insert_eq; by eapply lookup_lt_Some).
  rewrite (callCancelTrain_run E d tkey s1 t tr1 Hid Hsession Ht1).
  unfold sync, bind. rewrite cancel_loop_returns by done.
  eexists. split; reflexivity.
Qed.

End ModelProofs.

(** ** The properties above at sample inputs *)

Lemma progress_rejects_other_types_witness :
  exists e,
    progress sample_host 0 (PyBool true) (state_with_tracker fresh_tracker)
    = (state_with_tracker fresh_tracker, Exc e).
Proof.
  apply (progress_rejects_other_types sample_host
           (state_with_tracker fresh_tracker) 0 fresh_tracker (PyBool true));
    reflexivity.
Defined.

Lemma metrics_all_or_nothing_witness :
  exists e,
    metrics sample_host 0 (PyList [sample_metric; PyStr "loss"])
      (state_with_tracker fresh_tracker)
    = (state_with_tracker fresh_tracker, Exc e).
Proof.
  apply (metrics_all_or_nothing sample_host
           (state_with_tracker fresh_tracker) 0 fresh_tracker
           (PyList [sample_metric; PyStr "loss"])); [reflexivity|].
  apply Exists_cons_tl, Exists_cons_hd. reflexivity.
Defined.

Lemma callCancelTrain_unknown_session_witness :
  callCancelTrain sample_host (PyDict [("trainingSessionId", PyStr "t1")]) initial_state
  = Done initial_state None.
Proof.
  apply (callCancelTrain_unknown_session sample_host
           [("trainingSessionId", PyStr "t1")] "t1" initial_state); reflexivity.
Defined.

Lemma sample_callbacks_return :
  Forall (callable_returns sample_host) [PyFunc 10; PyFunc 11; PyFunc 10].
Proof.
  repeat constructor; eexists; (split; [reflexivity|discriminate]).
Qed.

Lemma callCancelTrain_twice_witness :
  exists s1 s2,
    callCancelTrain sample_host (PyDict [("trainingSessionId", PyStr "t1")])
      (state_with_tracker tracker_with_callbacks) = Done s1 None /\
    callCancelTrain sample_host (PyDict [("trainingSessionId", PyStr "t1")]) s1
      = Done s2 None /\
    trace s2 = trace (state_with_tracker tracker_with_callbacks)
               ++ cancel_events (_on_cancel tracker_with_callbacks)
               ++ cancel_events (_on_cancel tracker_with_callbacks).
Proof.
  apply (callCancelTrain_twice sample_host [("trainingSessionId", PyStr "t1")] "t1"
           (state_with_tracker tracker_with_callbacks) 0 tracker_with_callbacks);
    [reflexivity|reflexivity|reflexivity|apply sample_callbacks_return].
Defined.

Lemma callCancelTrain_stops_at_raise_witness :
  exists s',
    callCancelTrain raising_host (PyDict [("trainingSessionId", PyStr "t1")])
      (state_with_tracker tracker_with_callbacks)
    = Raised s' (Traceback "RuntimeError: boom") /\
    trace s' = trace (state_with_tracker tracker_with_callbacks)
               ++ cancel_events [PyFunc 10] ++ [EvUserCall 11 []] /\
    (cancelled <$> trackers s' !! 0%nat) = Some (Some true).
Proof.
  apply (callCancelTrain_stops_at_raise raising_host [("trainingSessionId", PyStr "t1")]
           "t1" (state_with_tracker tracker_with_callbacks) 0 tracker_with_callbacks
           [PyFunc 10] 11 [PyFunc 10] (Traceback "RuntimeError: boom"));
    [reflexivity|reflexivity|reflexivity|reflexivity| |reflexivity].
  repeat constructor. eexists. split; [reflexivity|discriminate].
Defined.

Lemma callInstantiateModel_completes_witness :
  (exists s',
     callInstantiateModel raising_host instantiate_args
       (set_runningProgram sync_program initial_state) = Done s' ok_result /\
     instantiatedModels s' !! "m1" = Some 0%nat /\
     activations s' !! 0%nat
       = Some {| act_id := "m1"; disposed := false; modelFuture := Some sample_model;
                 stored_model := Some sample_model;
                 stored_dispose := dispose2 sample_model |}) /\
  (exists s',
     callInstantiateModel raising_host instantiate_args loaded_state
       = Done s' (error_result (Traceback "RuntimeError: boom")) /\
     instantiatedModels s' !! "m1" = None /\
     activations s' !! 0%nat
       = Some {| act_id := "m1"; disposed := false; modelFuture := Some PyNone;
                 stored_model := None; stored_dispose := dispose |}).
Proof.
  split.
  - apply (callInstantiateModel_completes raising_host
             [("instantiatedModelId", PyStr "m1"); ("state", PyList [])] "m1"
             (PyList []) (PyObj []) 6 (set_runningProgram sync_program initial_state));
      reflexivity.
  - apply (callInstantiateModel_completes raising_host
             [("instantiatedModelId", PyStr "m1"); ("state", PyList [])] "m1"
             (PyList []) (PyObj []) 1 loaded_state); reflexivity.
Defined.

Lemma callInstantiateModel_pending_witness :
  exists s1 k,
    callInstantiateModel sample_host instantiate_args loaded_state
      = Suspended s1 (AwaitUser 0) k /\
    instantiatedModels s1 !! "m1" = Some 0%nat.
Proof.
  destruct (callInstantiateModel_pending sample_host
              [("instantiatedModelId", PyStr "m1"); ("state", PyList [])] "m1"
              (PyList []) (PyObj []) 1 0 loaded_state
              eq_refl eq_refl eq_refl eq_refl eq_refl) as (s1 & k & Hrun & Hhandle & _).
  exists s1, k. split; [exact Hrun|exact Hhandle].
Defined.

Lemma dispose_unknown_id_witness :
  callDisposeInstantiatedModel sample_host dispose_args initial_state
  = Done initial_state None.
Proof.
  apply (dispose_unknown_id sample_host [("instantiatedModelId", PyStr "m1")] "m1"
           initial_state); reflexivity.
Defined.

Lemma callGetModelState_not_found_witness :
  callGetModelState sample_host
    (PyDict [("instantiatedModelId", PyStr "m1"); ("id", PyStr "g1")]) initial_state
  = Done initial_state not_found_result.
Proof.
  apply (callGetModelState_not_found sample_host
           [("instantiatedModelId", PyStr "m1"); ("id", PyStr "g1")] "m1" initial_state);
    reflexivity.
Defined.

Lemma callEvaluate_returns_witness :
  exists s' r,
    callEvaluate raising_host (PyDict evaluate_args) (state_with_model sample_model)
      = Done s' (Some r) /\
    trace s' = trace (state_with_model sample_model)
               ++ [EvCreateDataLoaderMap 0 (PyList []); EvUserCall 2 [PyObj []]] /\
    r = {| result := PyDict [("outputs",
                        PyList [PyDict [("name", PyStr "out");
                                        ("byteSizes", PyList [PyInt 3; PyInt 2])]])];
           alsoSend := Some [ascii_bytes "abcde"] |}.
Proof.
  destruct (callEvaluate_returns raising_host evaluate_args "m1" 0
              {| act_id := "m1"; disposed := false; modelFuture := Some sample_model;
                 stored_model := Some sample_model;
                 stored_dispose := dispose2 sample_model |}
              sample_model (PyList []) (PyObj []) 2
              (PyList [PyDict [("name", PyStr "out");
                               ("data", PyList [PyBytes (ascii_bytes "abc");
                                                PyBytes (ascii_bytes "de")])]])
              (state_with_model sample_model)
              eq_refl eq_refl eq_refl eq_refl eq_refl eq_refl eq_refl eq_refl)
    as (s' & r & Hrun & Htrace & Hres).
  exists s', r. split; [exact Hrun|]. split; [exact Htrace|].
  destruct Hres as [Hr _]. exact Hr.
Defined.

Lemma callEvaluate_user_exception_witness :
  exists s',
    callEvaluate raising_host (PyDict evaluate_args) (state_with_model failing_model)
    = Done s' (error_result (Traceback "RuntimeError: boom")).
Proof.
  apply (callEvaluate_user_exception raising_host evaluate_args "m1" 0
           {| act_id := "m1"; disposed := false; modelFuture := Some failing_model;
              stored_model := Some failing_model;
              stored_dispose := dispose2 failing_model |}
           failing_model (PyList []) (PyObj []) 3 (state_with_model failing_model));
    reflexivity.
Defined.

Lemma callTrain_removes_session_witness :
  (exists s',
     callTrain sample_host (PyDict train_args) (state_with_model sample_model)
       = Done s' ok_result /\
     trainingSessions s' !! "t1" = None) /\
  (exists s',
     callTrain raising_host (PyDict train_args) (state_with_model failing_model)
       = Done s' (error_result (Traceback "RuntimeError: boom")) /\
     trainingSessions s' !! "t1" = None).
Proof.
  split.
  - apply (callTrain_removes_session sample_host train_args "t1" "m1" 0
             {| act_id := "m1"; disposed := false; modelFuture := Some sample_model;
                stored_model := Some sample_model;
                stored_dispose := dispose2 sample_model |}
             sample_model (PyList []) (PyObj []) 3 (state_with_model sample_model)
             eq_refl eq_refl eq_refl eq_refl eq_refl eq_refl eq_refl eq_refl)
      with (v := PyNone).
    reflexivity.
  - apply (callTrain_removes_session raising_host train_args "t1" "m1" 0
             {| act_id := "m1"; disposed := false; modelFuture := Some failing_model;
                stored_model := Some failing_model;
                stored_dispose := dispose2 failing_model |}
             failing_model (PyList []) (PyObj []) 3 (state_with_model failing_model)
             eq_refl eq_refl eq_refl eq_refl eq_refl eq_refl eq_refl eq_refl).
    reflexivity.
Defined.

Lemma processMessage_one_way_witness :
  processMessage raising_host (sample_dumps dispose_message) initial_state
  = Done initial_state tt.
Proof.
  apply (processMessage_one_way raising_host (sample_dumps dispose_message)
           [("method", PyStr "callDisposeInstantiatedModel");
            ("params", PyDict [("instantiatedModelId", PyStr "m1")])]
           [("instantiatedModelId", PyStr "m1")]
           "callDisposeInstantiatedModel" (callDisposeInstantiatedModel raising_host)
           initial_state initial_state None);
    [vm_compute; reflexivity|reflexivity|reflexivity|reflexivity|reflexivity|reflexivity].
Defined.

Lemma fits_not_found_reply :
  fits_frame
    (json_dumps raising_host
       (PyDict [("id", PyStr "8");
                ("result", PyDict [("error", PyStr "instantiated_model_not_found")])])
     :: []).
Proof.
  split; [discriminate|split]; [vm_compute; reflexivity|].
  constructor; [vm_compute; reflexivity|constructor].
Qed.

Lemma processMessage_replies_witness :
  processMessage raising_host (sample_dumps evaluate_message) initial_state
  = Done (set_outbox
            (outbox initial_state
             ++ [control_layout
                   [json_dumps raising_host
                      (PyDict [("id", PyStr "8");
                               ("result",
                                PyDict [("error", PyStr "instantiated_model_not_found")])])]])
            initial_state) tt.
Proof.
  apply (processMessage_replies raising_host (sample_dumps evaluate_message)
           [("method", PyStr "callEvaluate");
            ("params", PyDict [("instantiatedModelId", PyStr "m1"); ("params", PyList []);
                               ("id", PyStr "8")])]
           [("instantiatedModelId", PyStr "m1"); ("params", PyList []); ("id", PyStr "8")]
           "callEvaluate" (callEvaluate raising_host) initial_state initial_state
           (PyStr "8")
           {| result := PyDict [("error", PyStr "instantiated_model_not_found")];
              alsoSend := None |});
    [vm_compute; reflexivity|reflexivity|reflexivity|reflexivity|reflexivity|reflexivity|].
  apply fits_not_found_reply.
Defined.

Lemma processMessage_none_response_witness :
  exists e,
    processMessage raising_host (sample_dumps dispose_message_with_id) initial_state
    = Raised initial_state e.
Proof.
  apply (processMessage_none_response raising_host (sample_dumps dispose_message_with_id)
           [("method", PyStr "callDisposeInstantiatedModel");
            ("params", PyDict [("instantiatedModelId", PyStr "m1"); ("id", PyStr "9")])]
           [("instantiatedModelId", PyStr "m1"); ("id", PyStr "9")]
           "callDisposeInstantiatedModel" (callDisposeInstantiatedModel raising_host)
           initial_state initial_state (PyStr "9"));
    [vm_compute; reflexivity|reflexivity|reflexivity|reflexivity|reflexivity|reflexivity].
Defined.

Lemma processMessage_handler_raises_witness :
  processMessage raising_host (sample_dumps train_message_without_arguments) initial_state
  = Raised initial_state (runtime_exn raising_host "KeyError" "trainingSessionId").
Proof.
  apply (processMessage_handler_raises raising_host
           (sample_dumps train_message_without_arguments)
           [("method", PyStr "callTrain"); ("params", PyDict [])]
           "callTrain" (callTrain raising_host) (PyDict []) initial_state initial_state
           (runtime_exn raising_host "KeyError" "trainingSessionId"));
    [vm_compute; reflexivity|reflexivity|reflexivity|reflexivity|reflexivity].
Defined.

Lemma fits_initialized_event :
  fits_frame [json_dumps sample_host (PyDict [("event", PyStr "modelSessionInitialized");
                                              ("params", PyDict [])])].
Proof.
  split; [discriminate|split]; [vm_compute; reflexivity|].
  constructor; [vm_compute; reflexivity|constructor].
Qed.

Lemma fits_initialize_failed_event :
  fits_frame [json_dumps raising_host (PyDict [("event", PyStr "modelSessionInitialized");
    ("params", PyDict [("error",
       getErrorFromException (Traceback "ImportError: no module"))])])].
Proof.
  split; [discriminate|split]; [vm_compute; reflexivity|].
  constructor; [vm_compute; reflexivity|constructor].
Qed.

Lemma initialize_reports_witness :
  (exists s', initialize sample_host (PyDict [("path", PyStr "/models/model.py")])
                initial_state = Done s' None /\
              runningProgram s' = sample_program /\ length (outbox s') = 1%nat) /\
  (exists s', initialize raising_host (PyDict [("path", PyStr "/models/model.py")])
                initial_state = Done s' None /\
              runningProgram s' = PyNone /\ length (outbox s') = 1%nat).
Proof.
  split.
  - eexists. split.
    + apply (proj1 (initialize_reports sample_host [("path", PyStr "/models/model.py")]
                      "/models/model.py" initial_state eq_refl) sample_program);
        [reflexivity|].
      apply fits_initialized_event.
    + split; reflexivity.
  - eexists. split.
    + apply (proj2 (initialize_reports raising_host [("path", PyStr "/models/model.py")]
                      "/models/model.py" initial_state eq_refl)
               (Traceback "ImportError: no module")); [reflexivity|].
      apply fits_initialize_failed_event.
    + split; reflexivity.
Defined.

Lemma callCreateModelState_returns_witness :
  exists s',
    callCreateModelState raising_host (PyDict create_args) initial_state
    = Done s' (error_result (runtime_exn raising_host "AttributeError" "createModelState")) /\
    trace s' = trace initial_state
               ++ [EvCreateDataLoaderMap 0 (PyList []); EvCreateStateProvider 0 (PyStr "c1")]
               ++ other_state_events 0 [PyDict [("id", PyStr "o1"); ("state", PyList [])]] /\
    completes s' !! 0%nat = Some true.
Proof.
  apply (callCreateModelState_returns raising_host create_args (PyList []) (PyObj [])
           (PyStr "c1") (PyObj []) [PyDict [("id", PyStr "o1"); ("state", PyList [])]]
           initial_state eq_refl eq_refl eq_refl eq_refl eq_refl).
  - constructor; [|constructor].
    eexists _, _, _, _. repeat split; reflexivity.
  - reflexivity.
Defined.

Lemma wrapped_on_cancel_is_fired_witness :
  exists s',
    callCancelTrain sample_host (PyDict [("trainingSessionId", PyStr "t1")])
      (model.TrainTracker_on_cancel sample_host (model.TrainTracker (PyTracker 0))
         (PyFunc 10) (state_with_tracker fresh_tracker)).1
    = Done s' None /\
    trace s' = trace (state_with_tracker fresh_tracker)
               ++ cancel_events (_on_cancel fresh_tracker ++ [PyFunc 10]).
Proof.
  apply (wrapped_on_cancel_is_fired sample_host [("trainingSessionId", PyStr "t1")] "t1"
           0 fresh_tracker (PyFunc 10) (state_with_tracker fresh_tracker));
    [reflexivity|reflexivity|reflexivity|].
  repeat constructor. eexists. split; [reflexivity|discriminate].
Defined.
